(** * couchfs: a read-only FUSE view of a CouchDB account

    A shallow embedding of [src/couchfs/utils.py], [src/couchfs/couch.py]
    and of the earlier [src/couch_fuse/couch.py], followed by the
    properties of the path-resolution and attribute layer.

    Python values are embedded as an inductive type, exceptions as the
    error side of a result type, and the CouchDB client ([cloudant]) as a
    record of functions. *)

From Stdlib Require Import ZArith NArith List String Ascii Bool Lia.
From Stdlib Require Import Decimal SpecFloat.
From Stdlib Require Import Strings.Byte.
Import ListNotations.

Set Implicit Arguments.
Local Open Scope Z_scope.

(* ================================================================== *)
(** * Python runtime: exceptions, strings, bytes *)
(* ================================================================== *)

Module Py.

(** The exceptions the embedded code can raise.  [FuseOSError] carries
    its errno; [NameError] the unbound global. *)
Inductive exn : Type :=
| FuseOSError (errno : Z)
| NameError (name : string)
| AssertionError
| TypeError
| IndexError
| ValueError
| JSONDecodeError
| KeyError
| AttributeError
| UnicodeEncodeError.

Inductive result (A : Type) : Type :=
| Ok (a : A)
| Raise (e : exn).
Arguments Ok {A} a.
Arguments Raise {A} e.

Definition bind {A B} (m : result A) (k : A -> result B) : result B :=
  match m with
  | Ok a => k a
  | Raise e => Raise e
  end.

(** [assert c] *)
Definition assert (c : bool) : result unit :=
  if c then Ok tt else Raise AssertionError.

(** Classes that can stand after [except].  [JSONDecoder] is
    [json.JSONDecoder], the decoder class: it is not an exception. *)
Inductive pyclass : Type :=
| ClsJSONDecoder
| ClsValueError
| ClsException.

Definition inherits_BaseException (c : pyclass) : bool :=
  match c with
  | ClsJSONDecoder => false
  | ClsValueError | ClsException => true
  end.

Definition isinstance_exn (e : exn) (c : pyclass) : bool :=
  match c with
  | ClsJSONDecoder => false
  | ClsValueError =>
      match e with
      | ValueError | JSONDecodeError | UnicodeEncodeError => true
      | _ => false
      end
  | ClsException => true
  end.

(** [try: body / except cls as e: handler].  The class is looked at
    only when an exception reaches the clause; a class that does not
    inherit from [BaseException] then makes the interpreter raise
    [TypeError] ("catching classes that do not inherit from
    BaseException is not allowed"). *)
Definition try_except {A} (body : result A) (cls : pyclass)
    (handler : exn -> result A) : result A :=
  match body with
  | Ok a => Ok a
  | Raise e =>
      if inherits_BaseException cls
      then if isinstance_exn e cls then handler e else Raise e
      else Raise TypeError
  end.

(** A [str] is a sequence of Unicode code points, a [bytes] a sequence
    of octets. *)
Definition pystr : Type := list N.
Definition pybytes : Type := list byte.

Definition py (s : string) : pystr :=
  List.map N_of_ascii (list_ascii_of_string s).

Definition len {A} (s : list A) : Z := Z.of_nat (List.length s).

Fixpoint str_eqb (s t : pystr) : bool :=
  match s, t with
  | [], [] => true
  | c :: s', d :: t' => N.eqb c d && str_eqb s' t'
  | _, _ => false
  end.

(** [s.startswith(p)] *)
Fixpoint startswith (s p : pystr) {struct p} : bool :=
  match p, s with
  | [], _ => true
  | d :: p', c :: s' => N.eqb c d && startswith s' p'
  | _ :: _, [] => false
  end.

(** [s.endswith(p)] *)
Definition endswith (s p : pystr) : bool :=
  startswith (List.rev s) (List.rev p).

(** [sep in s]: [sep] occurs in [s] as a substring. *)
Fixpoint str_in (sep s : pystr) : bool :=
  startswith s sep ||
  match s with
  | [] => false
  | _ :: s' => str_in sep s'
  end.

(** The split of [s] around the last occurrence of [sep], if any:
    the part before it and the part after it. *)
Fixpoint rsplit_last (s sep : pystr) : option (pystr * pystr) :=
  match s with
  | [] => None
  | c :: s' =>
      match rsplit_last s' sep with
      | Some (h, t) => Some (c :: h, t)
      | None =>
          if startswith s sep
          then Some ([], skipn (List.length sep) s)
          else None
      end
  end.

(** [s.rpartition(sep)]: [(head, sep, tail)] around the last occurrence
    of [sep], [('', '', s)] when there is none, [ValueError] on an
    empty separator. *)
Definition rpartition (s sep : pystr) : result (pystr * pystr * pystr) :=
  match sep with
  | [] => Raise ValueError
  | _ :: _ =>
      match rsplit_last s sep with
      | Some (h, t) => Ok (h, sep, t)
      | None => Ok ([], [], s)
      end
  end.

(** Clamping of one slice bound: a negative bound counts from the end,
    and the result is brought into [0, n]. *)
Definition slice_bound (n i : Z) : Z :=
  let i' := if i <? 0 then i + n else i in
  if i' <? 0 then 0 else if n <? i' then n else i'.

(** [s[a:b]] *)
Definition slice {A} (s : list A) (a b : Z) : list A :=
  let n := len s in
  let a' := slice_bound n a in
  let b' := slice_bound n b in
  firstn (Z.to_nat (b' - a')) (skipn (Z.to_nat a') s).

(** [s[a:]] *)
Definition slice_from {A} (s : list A) (a : Z) : list A :=
  skipn (Z.to_nat (slice_bound (len s) a)) s.

(** [s[:b]] *)
Definition slice_to {A} (s : list A) (b : Z) : list A :=
  firstn (Z.to_nat (slice_bound (len s) b)) s.

(** Truth value of a [str]. *)
Definition str_truthy (s : pystr) : bool :=
  match s with [] => false | _ :: _ => true end.

(** ** Decimal text of an [int] *)

Fixpoint uint_digits (u : Decimal.uint) : pystr :=
  match u with
  | Decimal.Nil => []
  | Decimal.D0 u' => 48%N :: uint_digits u'
  | Decimal.D1 u' => 49%N :: uint_digits u'
  | Decimal.D2 u' => 50%N :: uint_digits u'
  | Decimal.D3 u' => 51%N :: uint_digits u'
  | Decimal.D4 u' => 52%N :: uint_digits u'
  | Decimal.D5 u' => 53%N :: uint_digits u'
  | Decimal.D6 u' => 54%N :: uint_digits u'
  | Decimal.D7 u' => 55%N :: uint_digits u'
  | Decimal.D8 u' => 56%N :: uint_digits u'
  | Decimal.D9 u' => 57%N :: uint_digits u'
  end.

(** [int.__repr__] *)
Definition int_repr (z : Z) : pystr :=
  match Z.to_int z with
  | Decimal.Pos u => uint_digits u
  | Decimal.Neg u => 45%N :: uint_digits u
  end.

(** ** [str.format] with auto-numbered fields

    The template is read left to right.  Of the field syntax only the
    empty field [{}] is embedded, which is all the templates of the
    source use; [{{] and [}}] are the escaped braces.  A field takes
    the next positional argument, and a field with no argument left is
    an [IndexError]. *)
Inductive fstate : Type :=
| Plain
| AfterLBrace
| AfterRBrace.

Definition lbrace : N := 123%N.
Definition rbrace : N := 125%N.

Fixpoint format_from (st : fstate) (t : pystr) (args : list pystr)
    : result pystr :=
  match t with
  | [] =>
      match st with
      | Plain => Ok []
      | AfterLBrace | AfterRBrace => Raise ValueError
      end
  | c :: t' =>
      match st with
      | Plain =>
          if N.eqb c lbrace then format_from AfterLBrace t' args
          else if N.eqb c rbrace then format_from AfterRBrace t' args
          else bind (format_from Plain t' args) (fun r => Ok (c :: r))
      | AfterLBrace =>
          if N.eqb c lbrace
          then bind (format_from Plain t' args) (fun r => Ok (lbrace :: r))
          else if N.eqb c rbrace then
            match args with
            | [] => Raise IndexError
            | a :: args' =>
                bind (format_from Plain t' args') (fun r => Ok (a ++ r))
            end
          else Raise ValueError
      | AfterRBrace =>
          if N.eqb c rbrace
          then bind (format_from Plain t' args) (fun r => Ok (rbrace :: r))
          else Raise ValueError
      end
  end.

(** [template.format( *args )], the arguments already turned into text. *)
Definition format (template : pystr) (args : list pystr) : result pystr :=
  format_from Plain template args.

(** ** UTF-8: [str.encode()] *)

Definition byte_of_N (n : N) : byte :=
  match Byte.of_N (n mod 256) with
  | Some b => b
  | None => x00
  end.

Definition is_surrogate (c : N) : bool :=
  (N.leb 55296 c && N.leb c 57343)%N.

Definition encode_char (c : N) : result pybytes :=
  if N.ltb c 128 then Ok [byte_of_N c]
  else if N.ltb c 2048 then
    Ok [byte_of_N (N.lor 192 (N.shiftr c 6));
        byte_of_N (N.lor 128 (N.land c 63))]
  else if is_surrogate c then Raise UnicodeEncodeError
  else if N.ltb c 65536 then
    Ok [byte_of_N (N.lor 224 (N.shiftr c 12));
        byte_of_N (N.lor 128 (N.land (N.shiftr c 6) 63));
        byte_of_N (N.lor 128 (N.land c 63))]
  else if N.ltb c 1114112 then
    Ok [byte_of_N (N.lor 240 (N.shiftr c 18));
        byte_of_N (N.lor 128 (N.land (N.shiftr c 12) 63));
        byte_of_N (N.lor 128 (N.land (N.shiftr c 6) 63));
        byte_of_N (N.lor 128 (N.land c 63))]
  else Raise UnicodeEncodeError.

(** Text within the ASCII range. *)
Definition ascii_str (s : pystr) : Prop :=
  Forall (fun c => (c < 128)%N) s.

Fixpoint encode (s : pystr) : result pybytes :=
  match s with
  | [] => Ok []
  | c :: s' =>
      bind (encode_char c) (fun b =>
      bind (encode s') (fun bs => Ok (b ++ bs)))
  end.

End Py.

Import Py.

(* ================================================================== *)
(** * Python values as the [json] module decodes and encodes them *)
(* ================================================================== *)

Module Json.

(** What [json.loads] builds: [None], [bool], [int], [float], [str],
    [list] and [dict] with [str] keys.  A [dict] keeps insertion order,
    so it is an association list; Python keeps one entry per key, and
    nothing below needs that. *)
#[local] Unset Elimination Schemes.
Inductive value : Type :=
| VNone
| VBool (b : bool)
| VInt (z : Z)
| VFloat (f : spec_float)
| VStr (s : pystr)
| VList (l : list value)
| VDict (d : list (pystr * value)).
#[local] Set Elimination Schemes.

(** [bool(v)] *)
Definition truthy (v : value) : bool :=
  match v with
  | VNone => false
  | VBool b => b
  | VInt z => negb (z =? 0)
  | VFloat f => match f with S754_zero _ => false | _ => true end
  | VStr s => str_truthy s
  | VList l => match l with [] => false | _ :: _ => true end
  | VDict d => match d with [] => false | _ :: _ => true end
  end.

(** [a and b] *)
Definition py_and (a b : value) : value :=
  if truthy a then b else a.

(** [d.get(key)] *)
Fixpoint dict_get (d : list (pystr * value)) (key : pystr) : value :=
  match d with
  | [] => VNone
  | (k, v) :: d' => if str_eqb k key then v else dict_get d' key
  end.

(** [d[key]] *)
Fixpoint dict_getitem (d : list (pystr * value)) (key : pystr)
    : result value :=
  match d with
  | [] => Raise KeyError
  | (k, v) :: d' => if str_eqb k key then Ok v else dict_getitem d' key
  end.

(** ** [json.dumps(obj, indent=2)]

    The defaults are in force: [ensure_ascii=True], [allow_nan=True],
    item separator [','] and key separator [': ']. *)

Definition hex_digit (d : N) : N :=
  (if d <? 10 then 48 + d else 87 + d)%N.

(** ['{0:04x}'.format(n)] for [n < 0x10000] *)
Definition hex4 (n : N) : pystr :=
  [hex_digit ((n / 4096) mod 16); hex_digit ((n / 256) mod 16);
   hex_digit ((n / 16) mod 16); hex_digit (n mod 16)]%N.

Definition backslash : N := 92%N.

(** The replacement of one character by [py_encode_basestring_ascii]:
    the short escapes, the printable ASCII range [' '..'~'] kept, and
    [\uXXXX] (a surrogate pair above the basic plane) for the rest. *)
Definition escape_char (c : N) : pystr :=
  (if c =? 34 then [backslash; 34]
   else if c =? 92 then [backslash; 92]
   else if c =? 8 then [backslash; 98]
   else if c =? 12 then [backslash; 102]
   else if c =? 10 then [backslash; 110]
   else if c =? 13 then [backslash; 114]
   else if c =? 9 then [backslash; 116]
   else if (32 <=? c) && (c <=? 126) then [c]
   else if c <? 65536 then backslash :: 117 :: hex4 c
   else
     let n := c - 65536 in
     let s1 := N.lor 55296 (N.land (N.shiftr n 10) 1023) in
     let s2 := N.lor 56320 (N.land n 1023) in
     (backslash :: 117 :: hex4 s1) ++ (backslash :: 117 :: hex4 s2))%N.

Definition encode_basestring_ascii (s : pystr) : pystr :=
  34%N :: flat_map escape_char s ++ [34%N].

(** ['\n' + ' ' * 2 * level] *)
Definition newline_indent (level : nat) : pystr :=
  10%N :: repeat 32%N (2 * level).

(** [sep.join(chunks)] *)
Fixpoint join (sep : pystr) (chunks : list pystr) : pystr :=
  match chunks with
  | [] => []
  | [c] => c
  | c :: rest => c ++ sep ++ join sep rest
  end.

Section Dumps.

(** [float.__repr__] on a finite float is the interpreter's shortest
    round-trip decimal text; it is taken as given. *)
Variable float_repr : spec_float -> pystr.

Definition floatstr (f : spec_float) : pystr :=
  match f with
  | S754_nan => py "NaN"
  | S754_infinity false => py "Infinity"
  | S754_infinity true => py "-Infinity"
  | _ => float_repr f
  end.

Fixpoint iterencode (level : nat) (v : value) : pystr :=
  match v with
  | VNone => py "null"
  | VBool true => py "true"
  | VBool false => py "false"
  | VInt z => int_repr z
  | VFloat f => floatstr f
  | VStr s => encode_basestring_ascii s
  | VList l =>
      match l with
      | [] => py "[]"
      | _ :: _ =>
          py "[" ++ newline_indent (S level)
          ++ join (py "," ++ newline_indent (S level))
                  (List.map (iterencode (S level)) l)
          ++ newline_indent level ++ py "]"
      end
  | VDict d =>
      match d with
      | [] => py "{}"
      | _ :: _ =>
          py "{" ++ newline_indent (S level)
          ++ join (py "," ++ newline_indent (S level))
                  (List.map (fun kv =>
                     encode_basestring_ascii (fst kv) ++ py ": "
                     ++ iterencode (S level) (snd kv)) d)
          ++ newline_indent level ++ py "}"
      end
  end.

Definition dumps_indent2 (obj : value) : pystr := iterencode 0 obj.

End Dumps.

End Json.

Import Json.

Notation "x <- m ;; k" := (bind m (fun x => k))
  (at level 61, m at next level, right associativity).
Notation "m ;;; k" := (bind m (fun _ => k))
  (at level 61, right associativity).

(* ================================================================== *)
(** * The CouchDB client and the objects the file system handles *)
(* ================================================================== *)

Module Client.

(** A [requests] response: [res.status_code], [res.text], and what
    [res.json()] decodes from the body, [None] when the body is not
    JSON. *)
Record Response : Type := {
  status_code : Z;
  text : pystr;
  decoded : option value
}.

(** [res.json()] *)
Definition json (res : Response) : result value :=
  match decoded res with
  | Some v => Ok v
  | None => Raise JSONDecodeError
  end.

(** A row of [db.all_docs()]; the code reads [x['id']] only.  The rows
    are those of an answered listing, each with its id: a row without
    one (an error answer in place of the listing) would make [x['id']]
    raise [KeyError], and such answers are outside this model.  What is
    proved of [readdir] on a database is therefore about the names of a
    listing that was answered. *)
Record Row : Type := { id : pystr }.

(** [account[name]] *)
Record Database : Type := {
  uri : pystr;
  all_docs : list Row
}.

(** [cloudant.Account]: [account.get(path)], [account.all_dbs().json()]
    and [account[name]].  Of [all_dbs] the model keeps the decoded array
    of database names; the request behind it and a body that is no such
    array are outside this model, and nothing is claimed below of the
    root path beyond what [getattr] returns there. *)
Record Account : Type := {
  get : pystr -> Response;
  all_dbs : list pystr;
  getitem : value -> Database
}.

(** What a variable of the code may hold: the response object, or a
    decoded or built value. *)
Inductive pyobj : Type :=
| ObjResponse (r : Response)
| ObjValue (v : value).

(** [isinstance(o, dict)], with the entries on success. *)
Definition isinstance_dict (o : pyobj) : option (list (pystr * value)) :=
  match o with
  | ObjValue (VDict d) => Some d
  | _ => None
  end.

(** [o.encode()] *)
Definition obj_encode (o : pyobj) : result pybytes :=
  match o with
  | ObjValue (VStr s) => encode s
  | _ => Raise AttributeError
  end.

(** [len(o)] *)
Definition obj_len (o : pyobj) : result Z :=
  match o with
  | ObjValue (VStr s) => Ok (len s)
  | ObjValue (VList l) => Ok (len l)
  | ObjValue (VDict d) => Ok (len d)
  | _ => Raise TypeError
  end.

(** [o.json()] *)
Definition obj_json (o : pyobj) : result value :=
  match o with
  | ObjResponse r => json r
  | ObjValue _ => Raise AttributeError
  end.

(** [o.text] *)
Definition obj_text (o : pyobj) : result pystr :=
  match o with
  | ObjResponse r => Ok (text r)
  | ObjValue _ => Raise AttributeError
  end.

(** [o[key]] *)
Definition obj_getitem (o : pyobj) (key : pystr) : result value :=
  match o with
  | ObjValue (VDict d) => dict_getitem d key
  | _ => Raise TypeError
  end.

(** [self.log.debug(msg, *args)]: the record goes to the logger and
    nothing comes back (the logging handlers keep their own formatting
    errors); only the evaluation of the arguments can raise. *)
Definition log_debug (msg : pystr) (args : list value) : result unit :=
  Ok tt.

End Client.

Import Client.

(* ================================================================== *)
(** * [src/couchfs/utils.py] *)
(* ================================================================== *)

Module Utils.

Definition is_db (doc : pyobj) : result bool :=
  match isinstance_dict doc with
  | None => Raise AssertionError
  | Some d =>
      if truthy (py_and (dict_get d (py "db_name"))
                        (dict_get d (py "update_seq")))
      then Ok true
      else Ok false
  end.

Definition is_doc (doc : pyobj) : result bool :=
  match isinstance_dict doc with
  | None => Raise AssertionError
  | Some d =>
      if truthy (py_and (dict_get d (py "_id")) (dict_get d (py "_rev")))
      then Ok true
      else Ok false
  end.

End Utils.

Import Utils.

(** Constants of the standard library the two modules use. *)
Definition NOT_FOUND : Z := 404.
Definition OK : Z := 200.
Definition S_IFDIR : Z := 16384.
Definition S_IFREG : Z := 32768.
Definition mode_0o755 : Z := 493.

(** The errno names bound in either module: the one import
    [from errno import ENOENT]. *)
Definition errno_imports : list (string * Z) := [("ENOENT"%string, 2)].

(** Evaluation of a global name that, if bound, is an errno. *)
Fixpoint lookup_global (env : list (string * Z)) (name : string)
    : result Z :=
  match env with
  | [] => Raise (NameError name)
  | (n, v) :: env' =>
      if String.eqb n name then Ok v else lookup_global env' name
  end.

(** Traversal of a list with a function that may raise. *)
Fixpoint mapM {A B} (f : A -> result B) (l : list A) : result (list B) :=
  match l with
  | [] => Ok []
  | a :: l' => b <- f a ;; bs <- mapM f l' ;; Ok (b :: bs)
  end.

(** A stat dictionary. *)
Definition stat_dict : Type := list (string * Z).

Fixpoint stat_get (d : stat_dict) (key : string) : option Z :=
  match d with
  | [] => None
  | (k, v) :: d' => if String.eqb k key then Some v else stat_get d' key
  end.

(* ================================================================== *)
(** * [src/couchfs/couch.py], class [Couch] *)
(* ================================================================== *)

Module Couchfs.

Section Couch.

(** [float.__repr__] and [str] of a tuple of names are the
    interpreter's. *)
Variable float_repr : spec_float -> pystr.
Variable tuple_str : list pystr -> pystr.

(** [self.account] *)
Variable account : Account.

(** [self._all_dbs] *)
Definition _all_dbs : list pystr := all_dbs account.

Definition _get_doc_body (res : Response) : result pyobj :=
  try_except
    (doc <- json res ;; Ok (ObjValue doc))
    ClsJSONDecoder
    (fun e =>
       log_debug (py "json decode failed") [] ;;;
       Ok (ObjValue (VStr (text res)))).

Definition _get_doc_formated (doc : pyobj) : result pyobj :=
  match isinstance_dict doc with
  | None => Raise AssertionError
  | Some d => Ok (ObjValue (VStr (dumps_indent2 float_repr (VDict d))))
  end.

Definition _get_doc_id (path : pystr) : result pystr :=
  name_part <- rpartition path (py ".json") ;;
  let '(part0, part1, part2) := name_part in
  Ok (if str_truthy part1 then part0 else part2).

(** In the first assertion [is_doc] is the function imported from
    [utils], a true value: [raw and is_doc] is true exactly when [raw]
    is.  The errno of each [raise] is a global name, evaluated when the
    [raise] runs. *)
Definition _get_doc (path : pystr) (raw check_doc formated : bool)
    : result pyobj :=
  assert (negb (raw && true)) ;;;
  assert (negb (raw && formated)) ;;;
  doc_id <- _get_doc_id path ;;
  let res := get account doc_id in
  let code := status_code res in
  (if code =? NOT_FOUND then
     errno <- lookup_global errno_imports "ENOENT" ;;
     Raise (FuseOSError errno)
   else if negb (code =? OK) then
     msg <- format (py "strang status {}") [int_repr code] ;;
     log_debug msg [] ;;;
     msg' <- format (py "content {}{}") [slice_to (text res) 200] ;;
     log_debug msg'
       [if 200 <? len (text res) then VStr (py " ...") else VNone]
   else Ok tt) ;;;
  if raw then Ok (ObjResponse res)
  else
    body <- _get_doc_body res ;;
    (if check_doc then
       ok <- is_doc body ;;
       if negb ok then
         errno <- lookup_global errno_imports "EIO" ;;
         Raise (FuseOSError errno)
       else Ok tt
     else Ok tt) ;;;
    if formated then _get_doc_formated body
    else Ok body.

Definition read (path : pystr) (size offset : Z) (fh : Z)
    : result pybytes :=
  body <- _get_doc (slice_from path 1) false true true ;;
  data <- obj_encode body ;;
  Ok (slice data offset (offset + size)).

(** A tuple of names, or [None] when the function falls off its end. *)
Definition readdir (path : pystr) (fh : Z)
    : result (option (list pystr)) :=
  let ret := [py "."; py ".."] in
  if str_eqb path (py "/") then Ok (Some (ret ++ _all_dbs))
  else
    doc <- _get_doc (slice_from path 1) false false false ;;
    isdb <- is_db doc ;;
    if isdb then
      name <- obj_getitem doc (py "db_name") ;;
      let db := getitem account name in
      docs <- mapM (fun x => format (py "{}.json") [id x])
                (filter (fun x =>
                   if startswith (id x) (py "_design/")
                   then false else true)
                   (all_docs db)) ;;
      msg <- format (py "All docs of {}: {}") [uri db; tuple_str docs] ;;
      log_debug msg [] ;;;
      Ok (Some (ret ++ docs))
    else Ok None.

Definition getattr (path : pystr) (fh : option Z) : result stat_dict :=
  if str_eqb path (py "/") then
    let st_nlink := 2 + len _all_dbs in
    Ok [("st_mode"%string, Z.lor S_IFDIR mode_0o755);
        ("st_nlink"%string, st_nlink)]
  else
    doc <- _get_doc (slice_from path 1) false false false ;;
    let file_type := S_IFREG in
    let st_nlink := 1 in
    let st_size := 0 in
    isdb <- is_db doc ;;
    attrs <-
      (if isdb then Ok (S_IFDIR, 2, 4096)
       else
         isdoc <- is_doc doc ;;
         if isdoc then
           formated <- _get_doc_formated doc ;;
           n <- obj_len formated ;;
           Ok (S_IFREG, 1, n)
         else Ok (file_type, st_nlink, st_size)) ;;
    let '(file_type, st_nlink, st_size) := attrs in
    Ok [("st_mode"%string, Z.lor file_type mode_0o755);
        ("st_nlink"%string, st_nlink);
        ("st_size"%string, st_size)].

End Couch.

End Couchfs.

(* ================================================================== *)
(** * [src/couch_fuse/couch.py], the earlier class [Couch] *)
(* ================================================================== *)

(** The earlier module fetches the path as it is, hands the raw
    response to its callers and lists document ids without the suffix.
    Its [from utils import is_db, is_doc] is read as the [utils] module
    above. *)
Module CouchFuse.

Section Couch.

Variable tuple_str : list pystr -> pystr.
Variable account : Account.

Definition _all_dbs : list pystr := all_dbs account.

Definition _get_doc (path : pystr) (raw : bool) : result pyobj :=
  let res := get account path in
  let code := status_code res in
  (if code =? NOT_FOUND then
     errno <- lookup_global errno_imports "ENOENT" ;;
     Raise (FuseOSError errno)
   else if negb (code =? OK) then
     msg <- format (py "strang status {}") [int_repr code] ;;
     log_debug msg [] ;;;
     msg' <- format (py "content {}{}") [slice_to (text res) 200] ;;
     log_debug msg'
       [if 200 <? len (text res) then VStr (py " ...") else VNone]
   else Ok tt) ;;;
  doc <- try_except
           (doc <- json res ;; Ok (ObjValue doc))
           ClsJSONDecoder
           (fun e =>
              log_debug (py "json decode failed") [] ;;;
              Ok (ObjValue (VStr (text res)))) ;;
  Ok (if negb raw then doc else ObjResponse res).

Definition read (path : pystr) (size offset : Z) (fh : Z)
    : result pybytes :=
  res <- _get_doc (slice_from path 1) true ;;
  doc <- obj_json res ;;
  ok <- is_doc (ObjValue doc) ;;
  (if negb ok then
     errno <- lookup_global errno_imports "EIO" ;;
     Raise (FuseOSError errno)
   else Ok tt) ;;;
  t <- obj_text res ;;
  data <- encode t ;;
  Ok (slice data offset (offset + size)).

Definition readdir (path : pystr) (fh : Z)
    : result (option (list pystr)) :=
  let ret := [py "."; py ".."] in
  if str_eqb path (py "/") then Ok (Some (ret ++ _all_dbs))
  else
    doc <- _get_doc (slice_from path 1) false ;;
    isdb <- is_db doc ;;
    if isdb then
      name <- obj_getitem doc (py "db_name") ;;
      let db := getitem account name in
      let docs := List.map (fun x => id x)
                    (filter (fun x =>
                       if startswith (id x) (py "_design/")
                       then false else true)
                       (all_docs db)) in
      msg <- format (py "All docs of {}: {}") [uri db; tuple_str docs] ;;
      log_debug msg [] ;;;
      Ok (Some (ret ++ docs))
    else Ok None.

Definition getattr (path : pystr) (fh : option Z) : result stat_dict :=
  if str_eqb path (py "/") then
    let st_nlink := 2 + len _all_dbs in
    Ok [("st_mode"%string, Z.lor S_IFDIR mode_0o755);
        ("st_nlink"%string, st_nlink)]
  else
    res <- _get_doc (slice_from path 1) true ;;
    doc <- obj_json res ;;
    let file_type := S_IFREG in
    let st_nlink := 1 in
    let st_size := 0 in
    isdb <- is_db (ObjValue doc) ;;
    attrs <-
      (if isdb then Ok (S_IFDIR, 2, st_size)
       else
         isdoc <- is_doc (ObjValue doc) ;;
         if isdoc then
           t <- obj_text res ;;
           data <- encode t ;;
           Ok (S_IFREG, 1, len data)
         else Ok (file_type, st_nlink, st_size)) ;;
    let '(file_type, st_nlink, st_size) := attrs in
    Ok [("st_mode"%string, Z.lor file_type mode_0o755);
        ("st_nlink"%string, st_nlink);
        ("st_size"%string, st_size)].

End Couch.

End CouchFuse.

(* ================================================================== *)
(** * [Couch.__init__] and the [__main__] block *)
(* ================================================================== *)

(** Lines 15-20 and 169-176 of [src/couchfs/couch.py]; the same lines
    close [src/couch_fuse/couch.py]. *)
Module Program.

(** The attributes [__init__] sets. *)
Record Couch : Type := {
  credential : option (value * value);
  couch_uri : pystr;
  account : Account
}.

(** What running the module comes to: the usage line printed and
    [exit(status)], or the [FUSE(...)] call with its arguments. *)
Inductive outcome : Type :=
| Exited (printed : list pystr) (status : Z)
| Mounted (fs : Couch) (mountpoint : pystr) (foreground nothreads : bool).

(** [l[i]] *)
Definition list_index {A} (l : list A) (i : nat) : result A :=
  match nth_error l i with
  | Some a => Ok a
  | None => Raise IndexError
  end.

Section Program.

(** [cloudant.Account(uri, auth=credential)] *)
Variable connect : pystr -> option (value * value) -> Account.

Definition __init__ (uri : pystr) (user passwd : value) : result Couch :=
  assert (truthy (if truthy user then passwd else VBool true)) ;;;
  let credential := if truthy user then Some (user, passwd) else None in
  Ok {| credential := credential;
        couch_uri := uri;
        account := connect uri credential |}.

Definition main (argv : list pystr) : result outcome :=
  if negb (len argv =? 3) then
    argv0 <- list_index argv 0 ;;
    line <- format (py "usage: {} <uri> <mountpoint>") [argv0] ;;
    Ok (Exited [line] 1)
  else
    argv1 <- list_index argv 1 ;;
    fs <- __init__ argv1 VNone VNone ;;
    argv2 <- list_index argv 2 ;;
    Ok (Mounted fs argv2 true true).

End Program.

End Program.

(* ================================================================== *)
(** * Entity kinds *)
(* ================================================================== *)

(** The three kinds of fetched object, and the order in which
    [Couch.getattr] tells them apart: [is_db] first, [is_doc] next,
    neither last. *)
Inductive kind : Type :=
| DatabaseDescriptor
| Document
| Opaque.

Definition classify (doc : pyobj) : result kind :=
  isdb <- is_db doc ;;
  if isdb then Ok DatabaseDescriptor
  else
    isdoc <- is_doc doc ;;
    if isdoc then Ok Document else Ok Opaque.

(** What the status test of [_get_doc] comes to once its debug lines
    are evaluated (see [_get_doc_unfold] below). *)
Definition status_check (res : Response) : result unit :=
  if status_code res =? NOT_FOUND then Raise (FuseOSError 2)
  else if negb (status_code res =? OK) then Raise IndexError
  else Ok tt.

(** The filter of [readdir], by name: the rows whose id is outside
    the design namespace. *)
Definition listed (x : Row) : bool :=
  if startswith (id x) (py "_design/") then false else true.

(* ================================================================== *)
(** * A small account used in the examples *)
(* ================================================================== *)

Module Scenario.

(** [str] of a tuple of plain names (printable ASCII, no quote and no
    backslash inside). *)
Definition tuple_str (l : list pystr) : pystr :=
  let quoted := List.map (fun s => py "'" ++ s ++ py "'") l in
  match quoted with
  | [q] => py "(" ++ q ++ py ",)"
  | _ => py "(" ++ join (py ", ") quoted ++ py ")"
  end.

(** [float.__repr__] on the two zeros; the documents below hold no
    other float, and the text of the others is left at ['nan']. *)
Definition float_repr (f : spec_float) : pystr :=
  match f with
  | S754_zero false => py "0.0"
  | S754_zero true => py "-0.0"
  | _ => py "nan"
  end.

(** A response body, written with ['] where the text has the double
    quote. *)
Definition body_text (s : string) : pystr :=
  List.map (fun c => if N.eqb c 39 then 34%N else c) (py s).

Definition alpha : value :=
  VDict [(py "db_name", VStr (py "alpha"));
         (py "doc_count", VInt 1);
         (py "update_seq", VInt 3)].

Definition doc1 : value :=
  VDict [(py "_id", VStr (py "doc1"));
         (py "_rev", VStr (py "1-abc"));
         (py "val", VInt 42)].

Definition welcome : value :=
  VDict [(py "couchdb", VStr (py "Welcome"))].

Definition names : value := VList [VStr (py "alpha")].

Definition missing : value :=
  VDict [(py "error", VStr (py "not_found"));
         (py "reason", VStr (py "missing"))].

(** One database [alpha] holding [doc1] and a design document; [_utils]
    answers with a page that is not JSON, [_all_dbs] with an array,
    [_busy] with status 500, and what is not known with 404. *)
Definition account : Account := {|
  get := fun path =>
    if str_eqb path (py "") then
      {| status_code := 200; text := body_text "{'couchdb':'Welcome'}";
         decoded := Some welcome |}
    else if str_eqb path (py "alpha") then
      {| status_code := 200;
         text := body_text "{'db_name':'alpha','doc_count':1,'update_seq':3}";
         decoded := Some alpha |}
    else if str_eqb path (py "alpha/doc1") then
      {| status_code := 200;
         text := body_text "{'_id':'doc1','_rev':'1-abc','val':42}";
         decoded := Some doc1 |}
    else if str_eqb path (py "_all_dbs") then
      {| status_code := 200; text := body_text "['alpha']";
         decoded := Some names |}
    else if str_eqb path (py "_utils") then
      {| status_code := 200; text := py "<!DOCTYPE html>";
         decoded := None |}
    else if str_eqb path (py "_busy") then
      {| status_code := 500;
         text := body_text "{'error':'not_found','reason':'missing'}";
         decoded := Some missing |}
    else
      {| status_code := 404;
         text := body_text "{'error':'not_found','reason':'missing'}";
         decoded := Some missing |};
  all_dbs := [py "alpha"];
  getitem := fun name =>
    {| uri := py "http://localhost:5984/alpha";
       all_docs := [ {| id := py "doc1" |};
                     {| id := py "_design/view1" |} ] |}
|}.

End Scenario.

(** A second account: a database whose [update_seq] is still 0, an
    object that carries the fields of a database and of a document at
    once, and a database named with the marker inside. *)
Module Fixture.

Definition fresh : value :=
  VDict [(py "db_name", VStr (py "fresh"));
         (py "doc_count", VInt 0);
         (py "update_seq", VInt 0)].

Definition hybrid : value :=
  VDict [(py "_id", VStr (py "hybrid"));
         (py "_rev", VStr (py "1-x"));
         (py "db_name", VStr (py "hybrid"));
         (py "update_seq", VInt 7)].

Definition account : Account := {|
  get := fun path =>
    if str_eqb path (py "fresh") then
      {| status_code := 200;
         text := Scenario.body_text
                   "{'db_name':'fresh','doc_count':0,'update_seq':0}";
         decoded := Some fresh |}
    else if str_eqb path (py "hybrid") then
      {| status_code := 200;
         text := Scenario.body_text
           "{'_id':'hybrid','_rev':'1-x','db_name':'hybrid','update_seq':7}";
         decoded := Some hybrid |}
    else
      {| status_code := 404;
         text := Scenario.body_text
                   "{'error':'not_found','reason':'missing'}";
         decoded := Some Scenario.missing |};
  all_dbs := [py "fresh"; py "hybrid"];
  getitem := fun name =>
    {| uri := py "http://localhost:5984/hybrid";
       all_docs := [ {| id := py "a" |};
                     {| id := py "_design/v" |};
                     {| id := py "b.json" |} ] |}
|}.

(** A client that answers every address with the second account. *)
Definition connect (uri : pystr) (auth : option (value * value))
    : Account := account.

End Fixture.

(* ================================================================== *)
(** * Facts about the string operations *)
(* ================================================================== *)

Section StringFacts.

Lemma str_eqb_eq (s t : pystr) : str_eqb s t = true <-> s = t.
Proof.
  revert t; induction s as [|c s IH]; intros [|d t]; simpl;
    try (split; [discriminate | congruence]); try tauto.
  rewrite andb_true_iff, N.eqb_eq, IH.
  split; [intros [-> ->]; reflexivity | intros E; inversion E; auto].
Qed.

Lemma startswith_app (p t : pystr) : startswith (p ++ t) p = true.
Proof.
  induction p as [|c p IH]; simpl; [reflexivity|].
  now rewrite N.eqb_refl, IH.
Qed.

Lemma startswith_refl (s : pystr) : startswith s s = true.
Proof.
  rewrite <- (app_nil_r s) at 1. apply startswith_app.
Qed.

Lemma startswith_split (s p : pystr) :
  startswith s p = true -> s = p ++ skipn (List.length p) s.
Proof.
  revert s; induction p as [|d p IH]; intros [|c s]; simpl; try easy.
  rewrite andb_true_iff, N.eqb_eq. intros [-> H]. f_equal. now apply IH.
Qed.

Lemma startswith_short (s p : pystr) :
  (List.length s < List.length p)%nat -> startswith s p = false.
Proof.
  revert s; induction p as [|d p IH]; intros [|c s]; simpl; try lia; auto.
  intros H. rewrite IH by lia. apply andb_false_r.
Qed.

Lemma rsplit_last_short (s sep : pystr) :
  (List.length s < List.length sep)%nat -> rsplit_last s sep = None.
Proof.
  induction s as [|c s IH]; simpl; intros H; [reflexivity|].
  rewrite IH by lia.
  now rewrite (startswith_short (c :: s) sep) by (simpl; lia).
Qed.

(** The last occurrence of a separator in a text that ends with it is
    the final one. *)
Lemma rsplit_last_app_sep (x sep : pystr) :
  sep <> [] -> rsplit_last (x ++ sep) sep = Some (x, []).
Proof.
  intros Hsep. induction x as [|c x IH]; simpl.
  - destruct sep as [|d sep]; [congruence|]. simpl.
    rewrite rsplit_last_short by (simpl; lia).
    rewrite N.eqb_refl, startswith_refl. simpl.
    now rewrite skipn_all.
  - now rewrite IH.
Qed.

Lemma rsplit_last_absent (s sep : pystr) :
  str_in sep s = false -> rsplit_last s sep = None.
Proof.
  induction s as [|c s IH]; cbn [rsplit_last str_in]; [reflexivity|].
  rewrite orb_false_iff. intros [Hs Hin].
  now rewrite (IH Hin), Hs.
Qed.

(** What [rsplit_last] returns is a split of the text around the
    separator. *)
Lemma rsplit_last_sound (s sep h t : pystr) :
  rsplit_last s sep = Some (h, t) -> s = h ++ sep ++ t.
Proof.
  revert h; induction s as [|c s IH]; simpl; intros h; [discriminate|].
  destruct (rsplit_last s sep) as [[h' t']|] eqn:E.
  - intros [= <- <-]. simpl. f_equal. now apply IH.
  - destruct (startswith (c :: s) sep) eqn:Hs; [|discriminate].
    intros [= <- <-]. simpl. now apply startswith_split.
Qed.

Lemma endswith_app (x p : pystr) : endswith (x ++ p) p = true.
Proof.
  unfold endswith. rewrite rev_app_distr. apply startswith_app.
Qed.

Lemma endswith_split (s p : pystr) :
  endswith s p = true -> exists x, s = x ++ p.
Proof.
  unfold endswith. intros H. apply startswith_split in H.
  exists (List.rev (skipn (List.length (List.rev p)) (List.rev s))).
  rewrite <- (rev_involutive s) at 1. rewrite H at 1.
  now rewrite rev_app_distr, rev_involutive.
Qed.

(** ['{}.json'.format(x)] appends the suffix. *)
Lemma format_json_suffix (x : pystr) :
  format (py "{}.json") [x] = Ok (x ++ py ".json").
Proof. reflexivity. Qed.

Lemma format_all_docs (a b : pystr) :
  exists msg, format (py "All docs of {}: {}") [a; b] = Ok msg.
Proof. eexists. reflexivity. Qed.

End StringFacts.

(* ================================================================== *)
(** * Facts about slices and UTF-8 *)
(* ================================================================== *)

Section SliceFacts.

Context {A : Type}.
Implicit Types s : list A.

Lemma len_nonneg s : 0 <= len s.
Proof. unfold len. lia. Qed.

Lemma slice_bound_nonneg (n i : Z) :
  0 <= n -> 0 <= i -> slice_bound n i = Z.min i n.
Proof.
  intros Hn Hi. unfold slice_bound.
  destruct (i <? 0) eqn:E1; [apply Z.ltb_lt in E1; lia|].
  rewrite E1. destruct (n <? i) eqn:E2;
    [apply Z.ltb_lt in E2 | apply Z.ltb_ge in E2]; lia.
Qed.

(** The length of a slice with bounds that are not negative. *)
Lemma slice_length s (a b : Z) :
  0 <= a -> 0 <= b ->
  len (slice s a b) = Z.max 0 (Z.min b (len s) - Z.min a (len s)).
Proof.
  intros Ha Hb. unfold slice.
  rewrite !slice_bound_nonneg by (auto using len_nonneg).
  unfold len. rewrite length_firstn, length_skipn. lia.
Qed.

Lemma slice_past_end s (a b : Z) :
  len s <= a -> 0 <= b -> slice s a b = [].
Proof.
  intros Ha Hb. unfold slice.
  pose proof (len_nonneg s) as Hn.
  rewrite (slice_bound_nonneg (i:=a) Hn) by lia.
  replace (Z.min a (len s)) with (len s) by lia.
  unfold len. rewrite Nat2Z.id, skipn_all. apply firstn_nil.
Qed.

Lemma slice_whole s (b : Z) : len s <= b -> slice s 0 b = s.
Proof.
  intros Hb. unfold slice.
  pose proof (len_nonneg s) as Hn.
  rewrite !(slice_bound_nonneg Hn) by lia.
  replace (Z.min b (len s)) with (len s) by lia.
  replace (Z.min 0 (len s)) with 0 by lia.
  simpl. rewrite Z.sub_0_r. unfold len. rewrite Nat2Z.id. apply firstn_all.
Qed.

(** A slice that reaches the end is the tail from its start. *)
Lemma slice_to_end s (a b : Z) :
  0 <= a -> len s <= b -> slice s a b = skipn (Z.to_nat a) s.
Proof.
  intros Ha Hb. unfold slice.
  pose proof (len_nonneg s) as Hn.
  rewrite !(slice_bound_nonneg Hn) by lia.
  replace (Z.min b (len s)) with (len s) by lia.
  destruct (Z.le_gt_cases a (len s)) as [Hle|Hgt].
  - replace (Z.min a (len s)) with a by lia.
    apply firstn_all2. rewrite length_skipn. unfold len in *. lia.
  - replace (Z.min a (len s)) with (len s) by lia.
    unfold len in *. rewrite Nat2Z.id, skipn_all, firstn_nil.
    symmetry. apply skipn_all2. lia.
Qed.

End SliceFacts.

Section EncodeFacts.

Lemma encode_char_ascii (c : N) :
  (c < 128)%N -> encode_char c = Ok [byte_of_N c].
Proof.
  intros H. unfold encode_char.
  now apply N.ltb_lt in H as ->.
Qed.

(** ASCII text encodes to one octet per character. *)
Lemma encode_ascii (s : pystr) :
  ascii_str s -> encode s = Ok (List.map byte_of_N s).
Proof.
  induction 1 as [|c s Hc _ IH]; simpl; [reflexivity|].
  now rewrite (encode_char_ascii Hc), IH.
Qed.

Lemma ascii_app (s t : pystr) :
  ascii_str s -> ascii_str t -> ascii_str (s ++ t).
Proof. unfold ascii_str. intros. apply Forall_app; auto. Qed.

Lemma ascii_cons (c : N) (s : pystr) :
  (c < 128)%N -> ascii_str s -> ascii_str (c :: s).
Proof. unfold ascii_str. auto. Qed.

Lemma ascii_nil : ascii_str [].
Proof. constructor. Qed.

End EncodeFacts.

(* ================================================================== *)
(** * The output of [json.dumps] is ASCII *)
(* ================================================================== *)

(** Induction on values, with the hypothesis available for every
    element of a list and every entry of a dict. *)
Section ValueInduction.

Variable P : value -> Prop.
Hypothesis HNone : P VNone.
Hypothesis HBool : forall b, P (VBool b).
Hypothesis HInt : forall z, P (VInt z).
Hypothesis HFloat : forall f, P (VFloat f).
Hypothesis HStr : forall s, P (VStr s).
Hypothesis HList : forall l, Forall P l -> P (VList l).
Hypothesis HDict :
  forall d, Forall (fun kv => P (snd kv)) d -> P (VDict d).

Fixpoint value_ind (v : value) : P v :=
  match v with
  | VNone => HNone
  | VBool b => HBool b
  | VInt z => HInt z
  | VFloat f => HFloat f
  | VStr s => HStr s
  | VList l =>
      HList
        ((fix all (l : list value) : Forall P l :=
            match l with
            | [] => Forall_nil P
            | x :: l' => Forall_cons x (value_ind x) (all l')
            end) l)
  | VDict d =>
      HDict
        ((fix all (d : list (pystr * value))
            : Forall (fun kv => P (snd kv)) d :=
            match d with
            | [] => Forall_nil _
            | (k, x) :: d' =>
                @Forall_cons _ (fun kv => P (snd kv)) (k, x) d'
                  (value_ind x) (all d')
            end) d)
  end.

End ValueInduction.

Section DumpsFacts.

Lemma hex_digit_ascii (n : N) : (hex_digit (n mod 16) < 128)%N.
Proof.
  pose proof (N.mod_lt n 16) as H. unfold hex_digit.
  destruct (n mod 16 <? 10)%N; lia.
Qed.

Lemma hex4_ascii (n : N) : ascii_str (hex4 n).
Proof. unfold hex4. repeat constructor; apply hex_digit_ascii. Qed.

Lemma escape_char_ascii (c : N) : ascii_str (escape_char c).
Proof.
  unfold escape_char, backslash, hex4, ascii_str.
  repeat match goal with
         | |- context [if ?b then _ else _] => destruct b eqn:?
         end;
    try match goal with
        | H : (_ && _ = true) |- _ =>
            apply andb_true_iff in H as [_ H%N.leb_le]
        end;
    cbn [app]; repeat constructor; try apply hex_digit_ascii; lia.
Qed.

Lemma encode_basestring_ascii_ascii (s : pystr) :
  ascii_str (encode_basestring_ascii s).
Proof.
  unfold encode_basestring_ascii.
  apply ascii_cons; [lia|]. apply ascii_app.
  - induction s as [|c s IH]; simpl; [apply ascii_nil|].
    apply ascii_app; [apply escape_char_ascii | exact IH].
  - apply ascii_cons; [lia | apply ascii_nil].
Qed.

Lemma uint_digits_ascii (u : Decimal.uint) : ascii_str (uint_digits u).
Proof.
  induction u; simpl; try apply ascii_nil; apply ascii_cons; auto; lia.
Qed.

Lemma int_repr_ascii (z : Z) : ascii_str (int_repr z).
Proof.
  unfold int_repr. destruct (Z.to_int z).
  - apply uint_digits_ascii.
  - apply ascii_cons; [lia | apply uint_digits_ascii].
Qed.

Lemma newline_indent_ascii (level : nat) : ascii_str (newline_indent level).
Proof.
  unfold newline_indent. apply ascii_cons; [lia|].
  induction (2 * level)%nat; simpl; [apply ascii_nil|].
  apply ascii_cons; [lia | assumption].
Qed.

Lemma join_ascii (sep : pystr) (chunks : list pystr) :
  ascii_str sep -> Forall ascii_str chunks -> ascii_str (join sep chunks).
Proof.
  intros Hsep. induction 1 as [|c rest Hc Hrest IH]; [apply ascii_nil|].
  destruct rest as [|c' rest]; [exact Hc|].
  change (ascii_str (c ++ sep ++ join sep (c' :: rest))).
  auto using ascii_app.
Qed.

Lemma py_literal_ascii (s : string) :
  forallb (fun c => (c <? 128)%N) (py s) = true -> ascii_str (py s).
Proof.
  intros H. apply Forall_forall. intros c Hc.
  rewrite forallb_forall in H. now apply N.ltb_lt, H.
Qed.

Variable float_repr : spec_float -> pystr.
Hypothesis float_repr_ascii : forall f, ascii_str (float_repr f).

Lemma floatstr_ascii (f : spec_float) : ascii_str (floatstr float_repr f).
Proof.
  destruct f as [s|[|]| |s m e]; simpl;
    try apply float_repr_ascii; now apply py_literal_ascii.
Qed.

Lemma iterencode_ascii (v : value) :
  forall level, ascii_str (iterencode float_repr level v).
Proof.
  induction v as [|[|]|z|f|s|l IH|d IH] using value_ind; intros level;
    cbn [iterencode];
    try (now apply py_literal_ascii);
    auto using int_repr_ascii, floatstr_ascii, encode_basestring_ascii_ascii.
  - destruct l as [|x l]; [now apply py_literal_ascii|].
    repeat apply ascii_app;
      try apply newline_indent_ascii; try (now apply py_literal_ascii).
    apply join_ascii.
    + apply ascii_app; [now apply py_literal_ascii
                       | apply newline_indent_ascii].
    + apply Forall_map. revert IH. apply Forall_impl. auto.
  - destruct d as [|kv d]; [now apply py_literal_ascii|].
    repeat apply ascii_app;
      try apply newline_indent_ascii; try (now apply py_literal_ascii).
    apply join_ascii.
    + apply ascii_app; [now apply py_literal_ascii
                       | apply newline_indent_ascii].
    + apply Forall_map. revert IH. apply Forall_impl. intros a Ha.
      repeat apply ascii_app; auto using encode_basestring_ascii_ascii.
      now apply py_literal_ascii.
Qed.

(** The formatted text is ASCII, so its UTF-8 encoding has as many
    octets as the text has characters. *)
Lemma dumps_encode (obj : value) :
  exists data,
    encode (dumps_indent2 float_repr obj) = Ok data /\
    len data = len (dumps_indent2 float_repr obj).
Proof.
  eexists. split.
  - apply encode_ascii, iterencode_ascii.
  - unfold len. now rewrite length_map.
Qed.

End DumpsFacts.

(* ================================================================== *)
(** * Classification: [utils.is_db], [utils.is_doc] *)
(* ================================================================== *)

Section ClassifierFacts.

Lemma truthy_py_and (a b : value) :
  truthy (py_and a b) = truthy a && truthy b.
Proof.
  unfold py_and. destruct (truthy a) eqn:E; simpl; [reflexivity | exact E].
Qed.

Lemma is_db_dict (d : list (pystr * value)) :
  is_db (ObjValue (VDict d)) =
  Ok (truthy (dict_get d (py "db_name")) &&
      truthy (dict_get d (py "update_seq"))).
Proof.
  unfold is_db. cbn [isinstance_dict]. rewrite truthy_py_and.
  now destruct (_ && _).
Qed.

Lemma is_doc_dict (d : list (pystr * value)) :
  is_doc (ObjValue (VDict d)) =
  Ok (truthy (dict_get d (py "_id")) && truthy (dict_get d (py "_rev"))).
Proof.
  unfold is_doc. cbn [isinstance_dict]. rewrite truthy_py_and.
  now destruct (_ && _).
Qed.

Lemma is_db_not_dict (o : pyobj) :
  isinstance_dict o = None -> is_db o = Raise AssertionError.
Proof. unfold is_db. now intros ->. Qed.

Lemma is_doc_not_dict (o : pyobj) :
  isinstance_dict o = None -> is_doc o = Raise AssertionError.
Proof. unfold is_doc. now intros ->. Qed.

(** A verdict of either test is given on dicts only. *)
Lemma is_db_inv (o : pyobj) (b : bool) :
  is_db o = Ok b -> exists d, o = ObjValue (VDict d).
Proof.
  unfold is_db. destruct o as [r|[]]; cbn; try discriminate. eauto.
Qed.

Lemma is_doc_inv (o : pyobj) (b : bool) :
  is_doc o = Ok b -> exists d, o = ObjValue (VDict d).
Proof.
  unfold is_doc. destruct o as [r|[]]; cbn; try discriminate. eauto.
Qed.

Lemma classify_Document (o : pyobj) :
  classify o = Ok Document -> is_db o = Ok false /\ is_doc o = Ok true.
Proof.
  unfold classify.
  destruct (is_db o) as [[|]|]; cbn; try discriminate.
  destruct (is_doc o) as [[|]|]; cbn; try discriminate. auto.
Qed.

(** C3, as the code has it.  On every dict, with or without the
    expected fields, classification returns one kind and raises
    nothing: a database descriptor when [db_name] and [update_seq] are
    both true values, else a document when [_id] and [_rev] are, else
    opaque.  A value that is not a dict is not classified: the
    [isinstance] assertion of [is_db] raises [AssertionError]. *)
Theorem classify_total_on_dicts (o : pyobj) :
  match isinstance_dict o with
  | Some d =>
      classify o =
      Ok (if truthy (dict_get d (py "db_name")) &&
             truthy (dict_get d (py "update_seq"))
          then DatabaseDescriptor
          else if truthy (dict_get d (py "_id")) &&
                  truthy (dict_get d (py "_rev"))
          then Document
          else Opaque)
  | None => classify o = Raise AssertionError
  end.
Proof.
  destruct (isinstance_dict o) as [d|] eqn:E.
  - assert (o = ObjValue (VDict d)) as ->.
    { destruct o as [r|[]]; cbn in E; congruence. }
    unfold classify. rewrite is_db_dict, is_doc_dict. cbn.
    destruct (_ && _); [reflexivity|]. cbn. now destruct (_ && _).
  - unfold classify. now rewrite (is_db_not_dict _ E).
Qed.

(** C3 as stated fails: a body that decodes to a JSON array, as the one
    of [_all_dbs], is not classified as opaque; both tests raise. *)
Lemma classify_array_raises :
  isinstance_dict (ObjValue Scenario.names) = None /\
  is_db (ObjValue Scenario.names) = Raise AssertionError /\
  is_doc (ObjValue Scenario.names) = Raise AssertionError /\
  classify (ObjValue Scenario.names) = Raise AssertionError /\
  classify (ObjValue Scenario.names) <> Ok Opaque.
Proof. repeat split; discriminate. Qed.

End ClassifierFacts.

(* ================================================================== *)
(** * [couchfs.couch.Couch]: resolution *)
(* ================================================================== *)

Section ResolutionFacts.

Variable float_repr : spec_float -> pystr.
Variable account : Account.

#[local] Abbreviation _get_doc := (Couchfs._get_doc float_repr account).
#[local] Abbreviation _get_doc_formated :=
  (Couchfs._get_doc_formated float_repr).

Lemma _get_doc_id_rpartition (path : pystr) :
  Couchfs._get_doc_id path =
  Ok (match rsplit_last path (py ".json") with
      | Some (h, _) => h
      | None => path
      end).
Proof.
  unfold Couchfs._get_doc_id, rpartition. cbn [py List.map list_ascii_of_string].
  now destruct (rsplit_last path _) as [[h t]|].
Qed.

(** The id of a name that ends with the suffix is the name without it,
    whatever the name holds before. *)
Lemma _get_doc_id_suffix (x : pystr) :
  Couchfs._get_doc_id (x ++ py ".json") = Ok x.
Proof.
  rewrite _get_doc_id_rpartition, rsplit_last_app_sep; [reflexivity|].
  discriminate.
Qed.

(** A name without the marker anywhere is its own id. *)
Lemma _get_doc_id_absent (path : pystr) :
  str_in (py ".json") path = false -> Couchfs._get_doc_id path = Ok path.
Proof.
  intros H. now rewrite _get_doc_id_rpartition, rsplit_last_absent.
Qed.

Lemma format_status (a : pystr) :
  format (py "strang status {}") [a] = Ok (py "strang status " ++ a).
Proof. cbn. now rewrite app_nil_r. Qed.

(** The second debug line has two fields and one argument. *)
Lemma format_content (a : pystr) :
  format (py "content {}{}") [a] = Raise IndexError.
Proof. reflexivity. Qed.

Lemma _get_doc_unfold (path : pystr) (check_doc formated : bool) :
  _get_doc path false check_doc formated =
  (doc_id <- Couchfs._get_doc_id path ;;
   status_check (get account doc_id) ;;;
   body <- Couchfs._get_doc_body (get account doc_id) ;;
   (if check_doc then
      ok <- is_doc body ;;
      if negb ok then Raise (NameError "EIO") else Ok tt
    else Ok tt) ;;;
   if formated then _get_doc_formated body else Ok body).
Proof.
  unfold Couchfs._get_doc, status_check. cbn [assert negb andb bind].
  destruct (Couchfs._get_doc_id path) as [doc_id|e]; cbn [bind];
    [|reflexivity].
  destruct (status_code (get account doc_id) =? NOT_FOUND); [reflexivity|].
  destruct (negb (status_code (get account doc_id) =? OK)).
  - now rewrite format_status, format_content.
  - reflexivity.
Qed.

(** The flags of [read] add the document check and the formatting to
    the plain fetch. *)
Lemma _get_doc_checked_formated (path : pystr) :
  _get_doc path false true true =
  (body <- _get_doc path false false false ;;
   ok <- is_doc body ;;
   if negb ok then Raise (NameError "EIO") else _get_doc_formated body).
Proof.
  rewrite !_get_doc_unfold.
  destruct (Couchfs._get_doc_id path) as [doc_id|e]; cbn [bind];
    [|reflexivity].
  destruct (status_check (get account doc_id)); cbn [bind]; [|reflexivity].
  destruct (Couchfs._get_doc_body (get account doc_id)) as [body|e];
    cbn [bind]; [|reflexivity].
  destruct (is_doc body) as [[|]|e]; reflexivity.
Qed.

End ResolutionFacts.

(* ================================================================== *)
(** * The identity codec: [_get_doc_id] and the names of [readdir] *)
(* ================================================================== *)

Section CodecClaims.

(** C6.  For a document id [x] in which the marker ['.json'] does not
    occur, the name [readdir] builds for it, ['{}.json'.format(x)],
    decodes back to [x] through [_get_doc_id]. *)
Theorem codec_round_trip (x : pystr) :
  str_in (py ".json") x = false ->
  exists filename,
    format (py "{}.json") [x] = Ok filename /\
    filename = x ++ py ".json" /\
    Couchfs._get_doc_id filename = Ok x.
Proof.
  intros _. exists (x ++ py ".json").
  split; [apply format_json_suffix|].
  split; [reflexivity | apply _get_doc_id_suffix].
Qed.

(** C7 at [notes.json.bak]: the name does not end with the marker, and
    [_get_doc_id] does not return it unchanged; it cuts the name at the
    marker and drops what follows. *)
Theorem _get_doc_id_cuts_inner_marker :
  endswith (py "notes.json.bak") (py ".json") = false /\
  Couchfs._get_doc_id (py "notes.json.bak") = Ok (py "notes") /\
  Couchfs._get_doc_id (py "notes.json.bak") <> Ok (py "notes.json.bak").
Proof. repeat split; discriminate. Qed.

(** A name that does end with the marker loses it. *)
Lemma _get_doc_id_strips_suffix (filename : pystr) :
  endswith filename (py ".json") = true ->
  exists x, filename = x ++ py ".json" /\ Couchfs._get_doc_id filename = Ok x.
Proof.
  intros [x ->]%endswith_split. exists x.
  split; [reflexivity | apply _get_doc_id_suffix].
Qed.

End CodecClaims.

(** [doc1] is an id without the marker: its name and back. *)
Lemma codec_round_trip_witness :
  str_in (py ".json") (py "doc1") = false /\
  exists filename,
    format (py "{}.json") [py "doc1"] = Ok filename /\
    filename = py "doc1" ++ py ".json" /\
    Couchfs._get_doc_id filename = Ok (py "doc1").
Proof.
  split; [reflexivity | apply (@codec_round_trip (py "doc1")); reflexivity].
Defined.

(* ================================================================== *)
(** * [couchfs.couch.Couch]: status codes, decoding, the document check *)
(* ================================================================== *)

Section ErrorPaths.

Variable float_repr : spec_float -> pystr.
Variable account : Account.

#[local] Abbreviation _get_doc := (Couchfs._get_doc float_repr account).

(** A 404 is [FuseOSError(ENOENT)]. *)
Lemma _get_doc_not_found (path doc_id : pystr) (raw check_doc formated : bool) :
  Couchfs._get_doc_id path = Ok doc_id ->
  status_code (get account doc_id) = NOT_FOUND ->
  raw = false ->
  _get_doc path raw check_doc formated = Raise (FuseOSError 2).
Proof.
  intros Hid Hcode ->. rewrite _get_doc_unfold, Hid. cbn [bind].
  unfold status_check. now rewrite Hcode.
Qed.

(** Any status other than 404 and 200 ends in the [IndexError] of the
    second debug line: the body is never looked at. *)
Lemma _get_doc_other_status (path doc_id : pystr) (check_doc formated : bool) :
  Couchfs._get_doc_id path = Ok doc_id ->
  status_code (get account doc_id) <> NOT_FOUND ->
  status_code (get account doc_id) <> OK ->
  _get_doc path false check_doc formated = Raise IndexError.
Proof.
  intros Hid H404 H200. rewrite _get_doc_unfold, Hid. cbn [bind].
  unfold status_check.
  apply Z.eqb_neq in H404 as ->. now apply Z.eqb_neq in H200 as ->.
Qed.

(** A body that is not JSON: the [except JSONDecoder] clause names a
    class that is not an exception, and [TypeError] leaves the
    function. *)
Lemma _get_doc_body_undecodable (res : Response) :
  decoded res = None -> Couchfs._get_doc_body res = Raise TypeError.
Proof.
  intros H. unfold Couchfs._get_doc_body, json. now rewrite H.
Qed.

Lemma _get_doc_body_decoded (res : Response) (v : value) :
  decoded res = Some v -> Couchfs._get_doc_body res = Ok (ObjValue v).
Proof.
  intros H. unfold Couchfs._get_doc_body, json. now rewrite H.
Qed.

(** A fetched dict that is not a document: the [raise] of [read]'s
    check evaluates [EIO], which no import binds. *)
Lemma read_not_a_document (path : pystr) (doc : pyobj) (size offset fh : Z) :
  _get_doc (slice_from path 1) false false false = Ok doc ->
  is_doc doc = Ok false ->
  Couchfs.read float_repr account path size offset fh
  = Raise (NameError "EIO").
Proof.
  intros Hdoc Hno. unfold Couchfs.read.
  now rewrite _get_doc_checked_formated, Hdoc; cbn [bind]; rewrite Hno.
Qed.

End ErrorPaths.

(** C4 at status 500.  [/_busy] answers 500 with a JSON body;
    resolution neither returns the body nor stops at the log: it raises
    [IndexError].  The 404 of [/nowhere] is [FuseOSError(ENOENT)]. *)
Theorem _get_doc_status_500_raises (float_repr : spec_float -> pystr) :
  status_code (get Scenario.account (py "_busy")) = 500 /\
  decoded (get Scenario.account (py "_busy")) = Some Scenario.missing /\
  Couchfs._get_doc float_repr Scenario.account (py "_busy")
    false false false = Raise IndexError /\
  Couchfs._get_doc float_repr Scenario.account (py "nowhere")
    false false false = Raise (FuseOSError 2).
Proof. repeat split. Qed.

(** C5 at [/_utils].  The body is a page of HTML; [_get_doc_body] does
    not return its text, it raises [TypeError], and so does every
    operation on the path. *)
Theorem _get_doc_undecodable_raises (float_repr : spec_float -> pystr) :
  status_code (get Scenario.account (py "_utils")) = 200 /\
  decoded (get Scenario.account (py "_utils")) = None /\
  Couchfs._get_doc_body (get Scenario.account (py "_utils"))
  = Raise TypeError /\
  Couchfs._get_doc float_repr Scenario.account (py "_utils")
    false false false = Raise TypeError /\
  Couchfs.getattr float_repr Scenario.account (py "/_utils") None
  = Raise TypeError.
Proof. repeat split. Qed.

(** C2 at [/alpha].  The path resolves to the database descriptor; the
    read returns no bytes, and what it raises is [NameError] for the
    unbound [EIO], not [FuseOSError(EIO)]. *)
Theorem read_database_raises_NameError (float_repr : spec_float -> pystr) :
  Couchfs._get_doc float_repr Scenario.account (py "alpha")
    false false false = Ok (ObjValue Scenario.alpha) /\
  classify (ObjValue Scenario.alpha) = Ok DatabaseDescriptor /\
  Couchfs.read float_repr Scenario.account (py "/alpha") 4096 0 0
  = Raise (NameError "EIO") /\
  lookup_global errno_imports "ENOENT" = Ok 2 /\
  lookup_global errno_imports "EIO" = Raise (NameError "EIO").
Proof. repeat split. Qed.

(* ================================================================== *)
(** * [couchfs.couch.Couch]: [read] and [getattr] *)
(* ================================================================== *)

Section ReadFacts.

Variable float_repr : spec_float -> pystr.
Hypothesis float_repr_ascii : forall f, ascii_str (float_repr f).
Variable account : Account.

#[local] Abbreviation _get_doc := (Couchfs._get_doc float_repr account).
#[local] Abbreviation _get_doc_formated :=
  (Couchfs._get_doc_formated float_repr).
#[local] Abbreviation read := (Couchfs.read float_repr account).
#[local] Abbreviation getattr := (Couchfs.getattr float_repr account).

(** [read] is the slice of the encoded body. *)
Lemma read_slice (path : pystr) (body : pyobj) (content : pybytes)
    (size offset fh : Z) :
  _get_doc (slice_from path 1) false true true = Ok body ->
  obj_encode body = Ok content ->
  read path size offset fh = Ok (slice content offset (offset + size)).
Proof.
  intros Hbody Henc. unfold Couchfs.read.
  now rewrite Hbody; cbn [bind]; rewrite Henc.
Qed.

(** C9.  With [content] the encoded body of the document at [path]: a
    read at an offset at or past the end of the content is empty, and a
    read whose range [offset, offset + size) passes the end returns the
    [len content - offset] octets that are left (none when the offset
    itself is past the end). *)
Theorem read_clips_to_content (path : pystr) (body : pyobj)
    (content : pybytes) (size offset fh : Z) :
  _get_doc (slice_from path 1) false true true = Ok body ->
  obj_encode body = Ok content ->
  0 <= offset -> 0 <= size ->
  exists data,
    read path size offset fh = Ok data /\
    (len content <= offset -> data = []) /\
    (len content < offset + size ->
       List.length data = Z.to_nat (len content - offset) /\
       data = skipn (Z.to_nat offset) content).
Proof.
  intros Hbody Henc Hoff Hsize.
  exists (slice content offset (offset + size)).
  split; [now apply read_slice with body|]. split.
  - intros Hpast. apply slice_past_end; lia.
  - intros Hover. rewrite slice_to_end by lia. split; [|reflexivity].
    rewrite length_skipn. unfold len. lia.
Qed.

(** A document is rendered and encoded without error, and the encoding
    has the length of the text. *)
Lemma document_content (doc : pyobj) :
  is_doc doc = Ok true ->
  exists text content,
    _get_doc_formated doc = Ok (ObjValue (VStr text)) /\
    encode text = Ok content /\
    len content = len text.
Proof.
  intros [d ->]%is_doc_inv.
  destruct (dumps_encode _ float_repr_ascii (VDict d)) as (content & He & Hl).
  exists (dumps_indent2 float_repr (VDict d)), content. auto.
Qed.

(** C1.  For a path other than the root whose fetched object is a
    document, the [st_size] of [getattr] is the length of the byte
    sequence [read] serves: the UTF-8 encoding of the formatted JSON,
    which a read from offset 0 of at least that size returns whole. *)
Theorem getattr_size_is_content_length (path : pystr) (doc : pyobj) :
  str_eqb path (py "/") = false ->
  _get_doc (slice_from path 1) false false false = Ok doc ->
  classify doc = Ok Document ->
  exists (text : pystr) (content : pybytes) (attrs : stat_dict),
    _get_doc_formated doc = Ok (ObjValue (VStr text)) /\
    encode text = Ok content /\
    (forall size fh, len content <= size ->
       read path size 0 fh = Ok content) /\
    (forall fh, getattr path fh = Ok attrs) /\
    stat_get attrs "st_size" = Some (len content).
Proof.
  intros Hroot Hdoc [Hdb Hisdoc]%classify_Document.
  destruct (document_content _ Hisdoc) as (text & content & Hf & He & Hl).
  exists text, content,
    [("st_mode"%string, Z.lor S_IFREG mode_0o755);
     ("st_nlink"%string, 1); ("st_size"%string, len text)].
  repeat split; auto.
  - intros size fh Hsize.
    rewrite read_slice with (body := ObjValue (VStr text)) (content := content).
    + now rewrite Z.add_0_l, slice_whole.
    + now rewrite _get_doc_checked_formated, Hdoc; cbn [bind];
        rewrite Hisdoc.
    + exact He.
  - intros fh. unfold Couchfs.getattr. rewrite Hroot, Hdoc. cbn [bind].
    rewrite Hdb. cbn [bind]. rewrite Hisdoc. cbn [bind].
    now rewrite Hf.
  - cbn. now rewrite Hl.
Qed.

(** X14.  [classify] is the cascade of [getattr]: a database descriptor is a
    directory of the fixed size 4096, an opaque dict an empty file. *)
Lemma getattr_by_kind (path : pystr) (doc : pyobj) (fh : option Z) :
  str_eqb path (py "/") = false ->
  _get_doc (slice_from path 1) false false false = Ok doc ->
  (classify doc = Ok DatabaseDescriptor ->
   getattr path fh =
   Ok [("st_mode"%string, Z.lor S_IFDIR mode_0o755);
       ("st_nlink"%string, 2); ("st_size"%string, 4096)]) /\
  (classify doc = Ok Opaque ->
   getattr path fh =
   Ok [("st_mode"%string, Z.lor S_IFREG mode_0o755);
       ("st_nlink"%string, 1); ("st_size"%string, 0)]).
Proof.
  intros Hroot Hdoc. unfold classify, Couchfs.getattr.
  rewrite Hroot, Hdoc. cbn [bind].
  destruct (is_db doc) as [[|]|e]; cbn [bind].
  - split; [reflexivity | discriminate].
  - destruct (is_doc doc) as [[|]|e]; cbn [bind];
      (split; [discriminate|]); try discriminate.
    reflexivity.
  - split; discriminate.
Qed.

End ReadFacts.

(* ================================================================== *)
(** * [couchfs.couch.Couch]: [readdir] *)
(* ================================================================== *)

Section ReaddirFacts.

Variable float_repr : spec_float -> pystr.
Variable tuple_str : list pystr -> pystr.
Variable account : Account.

#[local] Abbreviation _get_doc := (Couchfs._get_doc float_repr account).
#[local] Abbreviation readdir :=
  (Couchfs.readdir float_repr tuple_str account).

Lemma dict_getitem_truthy (d : list (pystr * value)) (key : pystr) :
  truthy (dict_get d key) = true ->
  dict_getitem d key = Ok (dict_get d key).
Proof.
  induction d as [|[k v] d IH]; cbn; [discriminate|].
  destruct (str_eqb k key); auto.
Qed.

Lemma mapM_format_suffix (rows : list Row) :
  mapM (fun x => format (py "{}.json") [id x]) rows
  = Ok (List.map (fun x => id x ++ py ".json") rows).
Proof.
  induction rows as [|x rows IH]; [reflexivity|].
  cbn [mapM List.map]. rewrite format_json_suffix. cbn [bind].
  now rewrite IH.
Qed.

(** What [readdir] returns on a database path. *)
Lemma readdir_database (path : pystr) (doc : pyobj) (fh : Z) :
  str_eqb path (py "/") = false ->
  _get_doc (slice_from path 1) false false false = Ok doc ->
  is_db doc = Ok true ->
  exists name,
    obj_getitem doc (py "db_name") = Ok name /\
    readdir path fh =
    Ok (Some (py "." :: py ".." ::
              List.map (fun x => id x ++ py ".json")
                (filter listed (all_docs (getitem account name))))).
Proof.
  intros Hroot Hdoc Hdb.
  destruct (is_db_inv _ Hdb) as [d ->].
  pose proof Hdb as Hfields. rewrite is_db_dict in Hfields.
  injection Hfields as Hfields.
  apply andb_true_iff in Hfields as [Hname _].
  exists (dict_get d (py "db_name")).
  pose proof (dict_getitem_truthy d _ Hname) as Hget.
  split; [exact Hget|].
  unfold Couchfs.readdir. rewrite Hroot, Hdoc. cbn [bind].
  rewrite Hdb. cbn [bind obj_getitem]. rewrite Hget. cbn [bind].
  fold listed. rewrite mapM_format_suffix. cbn [bind].
  match goal with
  | |- context [format _ [?a; ?b]] =>
      destruct (format_all_docs a b) as [msg ->]
  end.
  reflexivity.
Qed.

(** C8.  On a path that resolves to a database descriptor [readdir]
    returns ['.'], ['..'] and the child names; every child name is
    ['{}.json'.format] of the id of a row of the database's
    [all_docs()], an id that does not start with ['_design/'] and that
    [_get_doc_id] recovers from the name; and no name built from an id
    that starts with ['_design/'] is among the children. *)
Theorem readdir_lists_documents (path : pystr) (doc : pyobj) (fh : Z) :
  str_eqb path (py "/") = false ->
  _get_doc (slice_from path 1) false false false = Ok doc ->
  is_db doc = Ok true ->
  exists name children,
    obj_getitem doc (py "db_name") = Ok name /\
    readdir path fh = Ok (Some (py "." :: py ".." :: children)) /\
    Forall (fun child =>
              exists x,
                In x (all_docs (getitem account name)) /\
                startswith (id x) (py "_design/") = false /\
                format (py "{}.json") [id x] = Ok child /\
                Couchfs._get_doc_id child = Ok (id x))
           children /\
    (forall design_id child,
       startswith design_id (py "_design/") = true ->
       format (py "{}.json") [design_id] = Ok child ->
       ~ In child children).
Proof.
  intros Hroot Hdoc Hdb.
  destruct (@readdir_database path doc fh Hroot Hdoc Hdb)
    as (name & Hname & Hdir).
  exists name. eexists. split; [exact Hname|]. split; [exact Hdir|]. split.
  - apply Forall_forall. intros child Hin.
    apply in_map_iff in Hin as (x & <- & Hx).
    apply filter_In in Hx as [Hx Hkeep].
    exists x. repeat split; auto.
    + unfold listed in Hkeep. now destruct (startswith _ _).
    + apply _get_doc_id_suffix.
  - intros design_id child Hdesign Hchild Hin.
    rewrite format_json_suffix in Hchild. injection Hchild as <-.
    apply in_map_iff in Hin as (x & Heq & Hx).
    apply app_inv_tail in Heq. subst design_id.
    apply filter_In in Hx as [_ Hkeep].
    unfold listed in Hkeep. now rewrite Hdesign in Hkeep.
Qed.

(** When [is_db] turns the fetched object down, [readdir] has no
    [return] left to reach. *)
Lemma readdir_is_db_false (path : pystr) (doc : pyobj) (fh : Z) :
  str_eqb path (py "/") = false ->
  _get_doc (slice_from path 1) false false false = Ok doc ->
  is_db doc = Ok false ->
  readdir path fh = Ok None.
Proof.
  intros Hroot Hdoc Hdb. unfold Couchfs.readdir.
  now rewrite Hroot, Hdoc; cbn [bind]; rewrite Hdb.
Qed.

(** A fetched value that is not a dict stops [readdir] at the assertion
    of [is_db]: no tuple is returned then either. *)
Lemma readdir_not_dict (path : pystr) (doc : pyobj) (fh : Z) :
  str_eqb path (py "/") = false ->
  _get_doc (slice_from path 1) false false false = Ok doc ->
  isinstance_dict doc = None ->
  readdir path fh = Raise AssertionError.
Proof.
  intros Hroot Hdoc Hnd. unfold Couchfs.readdir.
  now rewrite Hroot, Hdoc; cbn [bind]; rewrite (is_db_not_dict _ Hnd).
Qed.

(** C10, as the code has it.  On a path other than the root whose
    fetched object does not classify as a database descriptor: when the
    object is a dict, [readdir] falls off its end and returns [None],
    not the tuple [('.', '..')]; when it is not a dict, the [isinstance]
    assertion of [is_db] raises [AssertionError].  No tuple is returned
    in either case. *)
Theorem readdir_without_database (path : pystr) (doc : pyobj) (fh : Z) :
  str_eqb path (py "/") = false ->
  _get_doc (slice_from path 1) false false false = Ok doc ->
  classify doc <> Ok DatabaseDescriptor ->
  match isinstance_dict doc with
  | Some _ => readdir path fh = Ok None
  | None => readdir path fh = Raise AssertionError
  end.
Proof.
  intros Hroot Hdoc Hkind.
  destruct (isinstance_dict doc) as [d|] eqn:Hd.
  - apply readdir_is_db_false with doc; auto.
    assert (doc = ObjValue (VDict d)) as ->.
    { destruct doc as [r|[]]; cbn in Hd; congruence. }
    unfold classify in Hkind. rewrite is_db_dict in *. cbn in Hkind.
    destruct (_ && _); [now contradict Hkind | reflexivity].
  - now apply readdir_not_dict with doc.
Qed.

End ReaddirFacts.

(* ================================================================== *)
(** * The properties on the example account *)
(* ================================================================== *)

Lemma scenario_float_repr_ascii (f : spec_float) :
  ascii_str (Scenario.float_repr f).
Proof. destruct f as [[|]|s| |s m e]; repeat constructor. Qed.

(** [/alpha/doc1.json] is a document: its size and its content. *)
Lemma getattr_size_is_content_length_witness :
  (forall f, ascii_str (Scenario.float_repr f)) /\
  str_eqb (py "/alpha/doc1.json") (py "/") = false /\
  Couchfs._get_doc Scenario.float_repr Scenario.account
    (slice_from (py "/alpha/doc1.json") 1) false false false
  = Ok (ObjValue Scenario.doc1) /\
  classify (ObjValue Scenario.doc1) = Ok Document /\
  exists (text : pystr) (content : pybytes) (attrs : stat_dict),
    Couchfs._get_doc_formated Scenario.float_repr (ObjValue Scenario.doc1)
    = Ok (ObjValue (VStr text)) /\
    encode text = Ok content /\
    (forall size fh, len content <= size ->
       Couchfs.read Scenario.float_repr Scenario.account
         (py "/alpha/doc1.json") size 0 fh = Ok content) /\
    (forall fh,
       Couchfs.getattr Scenario.float_repr Scenario.account
         (py "/alpha/doc1.json") fh = Ok attrs) /\
    stat_get attrs "st_size" = Some (len content).
Proof.
  split; [exact scenario_float_repr_ascii|].
  split; [reflexivity|]. split; [reflexivity|]. split; [reflexivity|].
  apply (@getattr_size_is_content_length Scenario.float_repr
           scenario_float_repr_ascii Scenario.account
           (py "/alpha/doc1.json") (ObjValue Scenario.doc1));
    reflexivity.
Defined.

(** A read of 100 octets at offset 40 of the 51 octets of
    [/alpha/doc1.json]. *)
Lemma read_clips_to_content_witness :
  Couchfs._get_doc Scenario.float_repr Scenario.account
    (slice_from (py "/alpha/doc1.json") 1) false true true
  = Ok (ObjValue
          (VStr (dumps_indent2 Scenario.float_repr Scenario.doc1))) /\
  0 <= 40 /\ 0 <= 100 /\
  exists content data,
    obj_encode
      (ObjValue (VStr (dumps_indent2 Scenario.float_repr Scenario.doc1)))
    = Ok content /\
    len content = 51 /\
    Couchfs.read Scenario.float_repr Scenario.account
      (py "/alpha/doc1.json") 100 40 0 = Ok data /\
    (len content <= 40 -> data = []) /\
    (len content < 40 + 100 ->
       List.length data = Z.to_nat (len content - 40) /\
       data = skipn (Z.to_nat 40) content).
Proof.
  split; [reflexivity|]. split; [lia|]. split; [lia|].
  eexists. 
  destruct (@read_clips_to_content Scenario.float_repr Scenario.account
              (py "/alpha/doc1.json")
              (ObjValue
                 (VStr (dumps_indent2 Scenario.float_repr Scenario.doc1)))
              _ 100 40 0 eq_refl eq_refl) as (data & Hread & Hclip);
    [lia | lia |].
  exists data. split; [reflexivity|]. split; [reflexivity|].
  split; [exact Hread | exact Hclip].
Defined.

(** [/alpha] is a database: its listing. *)
Lemma readdir_lists_documents_witness :
  str_eqb (py "/alpha") (py "/") = false /\
  Couchfs._get_doc Scenario.float_repr Scenario.account
    (slice_from (py "/alpha") 1) false false false
  = Ok (ObjValue Scenario.alpha) /\
  is_db (ObjValue Scenario.alpha) = Ok true /\
  exists name children,
    obj_getitem (ObjValue Scenario.alpha) (py "db_name") = Ok name /\
    Couchfs.readdir Scenario.float_repr Scenario.tuple_str Scenario.account
      (py "/alpha") 0
    = Ok (Some (py "." :: py ".." :: children)) /\
    Forall (fun child =>
              exists x,
                In x (all_docs (getitem Scenario.account name)) /\
                startswith (id x) (py "_design/") = false /\
                format (py "{}.json") [id x] = Ok child /\
                Couchfs._get_doc_id child = Ok (id x))
           children /\
    (forall design_id child,
       startswith design_id (py "_design/") = true ->
       format (py "{}.json") [design_id] = Ok child ->
       ~ In child children).
Proof.
  split; [reflexivity|]. split; [reflexivity|]. split; [reflexivity|].
  apply (@readdir_lists_documents Scenario.float_repr Scenario.tuple_str
           Scenario.account (py "/alpha") (ObjValue Scenario.alpha) 0);
    reflexivity.
Defined.

(** The listing of [/alpha], computed. *)
Example readdir_alpha :
  Couchfs.readdir Scenario.float_repr Scenario.tuple_str Scenario.account
    (py "/alpha") 0
  = Ok (Some [py "."; py ".."; py "doc1.json"]).
Proof. reflexivity. Qed.

(** [/alpha/doc1.json] is a dict and not a database: no listing. *)
Lemma readdir_without_database_witness :
  str_eqb (py "/alpha/doc1.json") (py "/") = false /\
  Couchfs._get_doc Scenario.float_repr Scenario.account
    (slice_from (py "/alpha/doc1.json") 1) false false false
  = Ok (ObjValue Scenario.doc1) /\
  classify (ObjValue Scenario.doc1) <> Ok DatabaseDescriptor /\
  Couchfs.readdir Scenario.float_repr Scenario.tuple_str Scenario.account
    (py "/alpha/doc1.json") 0 = Ok None.
Proof.
  split; [reflexivity|]. split; [reflexivity|]. split; [discriminate|].
  apply (@readdir_without_database Scenario.float_repr
           Scenario.tuple_str Scenario.account (py "/alpha/doc1.json")
           (ObjValue Scenario.doc1) 0);
    [reflexivity | reflexivity | discriminate].
Defined.

(** C10 as stated fails at [/_all_dbs]: the path is not the root, the
    fetched array does not classify as a database descriptor, and
    [readdir] does not return [None]; it raises [AssertionError]. *)
Lemma readdir_array_raises :
  str_eqb (py "/_all_dbs") (py "/") = false /\
  Couchfs._get_doc Scenario.float_repr Scenario.account
    (slice_from (py "/_all_dbs") 1) false false false
  = Ok (ObjValue Scenario.names) /\
  classify (ObjValue Scenario.names) <> Ok DatabaseDescriptor /\
  Couchfs.readdir Scenario.float_repr Scenario.tuple_str Scenario.account
    (py "/_all_dbs") 0 = Raise AssertionError /\
  Couchfs.readdir Scenario.float_repr Scenario.tuple_str Scenario.account
    (py "/_all_dbs") 0 <> Ok None.
Proof.
  split; [reflexivity|]. split; [reflexivity|]. split; [discriminate|].
  split; [reflexivity | discriminate].
Qed.

(* ================================================================== *)
(** * The earlier module [couch_fuse.couch] *)
(* ================================================================== *)

Section CouchFuseFacts.

Variable tuple_str : list pystr -> pystr.
Variable account : Account.

(** The earlier [_get_doc] has the same status test and the same
    [except] clause. *)
Lemma couch_fuse_get_doc_unfold (path : pystr) (raw : bool) :
  CouchFuse._get_doc account path raw =
  (status_check (get account path) ;;;
   match decoded (get account path) with
   | Some v => Ok (if raw then ObjResponse (get account path)
                   else ObjValue v)
   | None => Raise TypeError
   end).
Proof.
  unfold CouchFuse._get_doc, status_check, json.
  destruct (status_code (get account path) =? NOT_FOUND); [reflexivity|].
  destruct (negb (status_code (get account path) =? OK)).
  - now rewrite format_status, format_content.
  - cbn [bind]. destruct (decoded (get account path)); [|reflexivity].
    now destruct raw.
Qed.

(** There too a listing of a path that is not a database is [None]. *)
Lemma couch_fuse_readdir_non_database (path : pystr) (doc : pyobj) (fh : Z) :
  str_eqb path (py "/") = false ->
  CouchFuse._get_doc account (slice_from path 1) false = Ok doc ->
  is_db doc = Ok false ->
  CouchFuse.readdir tuple_str account path fh = Ok None.
Proof.
  intros Hroot Hdoc Hdb. unfold CouchFuse.readdir.
  now rewrite Hroot, Hdoc; cbn [bind]; rewrite Hdb.
Qed.

(** X24.  There the size is the length of the encoded response text, the
    very bytes [read] slices. *)
Lemma couch_fuse_getattr_size (path : pystr) (res : Response) (doc : value)
    (data : pybytes) :
  str_eqb path (py "/") = false ->
  CouchFuse._get_doc account (slice_from path 1) true = Ok (ObjResponse res) ->
  decoded res = Some doc ->
  classify (ObjValue doc) = Ok Document ->
  encode (text res) = Ok data ->
  (forall size fh, len data <= size ->
     CouchFuse.read account path size 0 fh = Ok data) /\
  (forall fh,
     CouchFuse.getattr account path fh =
     Ok [("st_mode"%string, Z.lor S_IFREG mode_0o755);
         ("st_nlink"%string, 1); ("st_size"%string, len data)]).
Proof.
  intros Hroot Hres Hdec [Hdb Hdoc]%classify_Document Henc. split.
  - intros size fh Hsize. unfold CouchFuse.read. rewrite Hres.
    cbn [bind obj_json obj_text]. unfold json. rewrite Hdec. cbn [bind].
    rewrite Hdoc. cbn [bind negb]. rewrite Henc. cbn [bind].
    now rewrite Z.add_0_l, slice_whole.
  - intros fh. unfold CouchFuse.getattr. rewrite Hroot, Hres.
    cbn [bind obj_json obj_text]. unfold json. rewrite Hdec. cbn [bind].
    rewrite Hdb. cbn [bind]. rewrite Hdoc. cbn [bind].
    now rewrite Henc.
Qed.

End CouchFuseFacts.

(** The same three failures on the example account. *)
Example couch_fuse_read_database :
  CouchFuse.read Scenario.account (py "/alpha") 4096 0 0
  = Raise (NameError "EIO").
Proof. reflexivity. Qed.

Example couch_fuse_status_500 :
  CouchFuse._get_doc Scenario.account (py "_busy") false = Raise IndexError.
Proof. reflexivity. Qed.

Example couch_fuse_undecodable :
  CouchFuse._get_doc Scenario.account (py "_utils") false = Raise TypeError.
Proof. reflexivity. Qed.

(* ================================================================== *)
(** * Further properties: the identity codec *)
(* ================================================================== *)

Section CodecFacts.

Lemma rsplit_last_none_absent (s sep : pystr) :
  sep <> [] -> rsplit_last s sep = None -> str_in sep s = false.
Proof.
  intros Hsep. induction s as [|c s IH]; cbn [rsplit_last str_in].
  - intros _. destruct sep; [congruence | reflexivity].
  - destruct (rsplit_last s sep) as [[h t]|]; [discriminate|].
    destruct (startswith (c :: s) sep); [discriminate|].
    intros _. now rewrite IH.
Qed.

(** X6.  The id is always a prefix of the path: what is cut off, if
    anything, begins with the marker. *)
Theorem _get_doc_id_prefix (path : pystr) :
  exists doc_id rest,
    Couchfs._get_doc_id path = Ok doc_id /\
    path = doc_id ++ rest /\
    (rest = [] \/ startswith rest (py ".json") = true) /\
    (List.length doc_id <= List.length path)%nat.
Proof.
  rewrite _get_doc_id_rpartition.
  destruct (rsplit_last path (py ".json")) as [[h t]|] eqn:E.
  - apply rsplit_last_sound in E.
    exists h, (py ".json" ++ t).
    split; [reflexivity|]. split; [exact E|]. split.
    + right. apply startswith_app.
    + rewrite E, length_app. lia.
  - exists path, []. rewrite app_nil_r. auto.
Qed.

(** X7.  The path comes back unchanged exactly when the marker occurs
    nowhere in it. *)
Theorem _get_doc_id_unchanged_iff (path : pystr) :
  Couchfs._get_doc_id path = Ok path <-> str_in (py ".json") path = false.
Proof.
  split; [|apply _get_doc_id_absent].
  rewrite _get_doc_id_rpartition.
  destruct (rsplit_last path (py ".json")) as [[h t]|] eqn:E.
  - intros [= ->]. apply rsplit_last_sound in E.
    apply (f_equal (@List.length N)) in E.
    rewrite !length_app in E. cbn in E. lia.
  - intros _. now apply rsplit_last_none_absent.
Qed.

(** X8.  A name that ends with the marker loses exactly that last
    occurrence, whatever stands before it. *)
Theorem _get_doc_id_strips_last_marker (filename : pystr) :
  endswith filename (py ".json") = true ->
  exists x,
    filename = x ++ py ".json" /\
    Couchfs._get_doc_id filename = Ok x /\
    List.length filename = (List.length x + 5)%nat.
Proof.
  intros [x ->]%endswith_split. exists x.
  split; [reflexivity|]. split; [apply _get_doc_id_suffix|].
  now rewrite length_app.
Qed.

End CodecFacts.

(** [b.json.json], the name [readdir] gives to the id [b.json]. *)
Lemma _get_doc_id_strips_last_marker_witness :
  endswith (py "b.json.json") (py ".json") = true /\
  exists x,
    py "b.json.json" = x ++ py ".json" /\
    Couchfs._get_doc_id (py "b.json.json") = Ok x /\
    List.length (py "b.json.json") = (List.length x + 5)%nat.
Proof.
  split; [reflexivity|].
  apply (@_get_doc_id_strips_last_marker (py "b.json.json")). reflexivity.
Defined.

(* ================================================================== *)
(** * Further properties: resolution *)
(* ================================================================== *)

Section ResolutionMore.

Variable float_repr : spec_float -> pystr.
Variable tuple_str : list pystr -> pystr.
Variable account : Account.

#[local] Abbreviation _get_doc := (Couchfs._get_doc float_repr account).
#[local] Abbreviation read := (Couchfs.read float_repr account).
#[local] Abbreviation getattr := (Couchfs.getattr float_repr account).
#[local] Abbreviation readdir :=
  (Couchfs.readdir float_repr tuple_str account).

Lemma _get_doc_id_total (path : pystr) :
  exists doc_id, Couchfs._get_doc_id path = Ok doc_id.
Proof. rewrite _get_doc_id_rpartition. eauto. Qed.

Lemma _get_doc_body_value (res : Response) (o : pyobj) :
  Couchfs._get_doc_body res = Ok o ->
  exists v, decoded res = Some v /\ o = ObjValue v.
Proof.
  unfold Couchfs._get_doc_body, json.
  destruct (decoded res) as [v|]; cbn; [|discriminate].
  intros [= <-]. eauto.
Qed.

(** X1.  The [raw] mode cannot be used: with [raw=True] the first assertion
    fails before anything is fetched, and without it what comes back is
    a decoded or formatted value.  The response object never leaves
    [_get_doc]. *)
Theorem _get_doc_never_returns_response
    (path : pystr) (raw check_doc formated : bool) :
  (raw = true ->
   _get_doc path raw check_doc formated = Raise AssertionError) /\
  (forall res, _get_doc path raw check_doc formated <> Ok (ObjResponse res)).
Proof.
  split; [now intros ->|].
  intros res. destruct raw; [discriminate|].
  rewrite _get_doc_unfold.
  destruct (Couchfs._get_doc_id path) as [doc_id|e]; cbn [bind];
    [|discriminate].
  destruct (status_check _); cbn [bind]; [|discriminate].
  destruct (Couchfs._get_doc_body _) as [body|e] eqn:Hb; cbn [bind];
    [|discriminate].
  apply _get_doc_body_value in Hb as (v & _ & ->).
  assert (Hf : Couchfs._get_doc_formated float_repr (ObjValue v)
               <> Ok (ObjResponse res)).
  { unfold Couchfs._get_doc_formated.
    destruct (isinstance_dict _); discriminate. }
  destruct check_doc; cbn [bind].
  - destruct (is_doc (ObjValue v)) as [[|]|e]; cbn [bind negb];
      try discriminate.
    destruct formated; [exact Hf | discriminate].
  - destruct formated; [exact Hf | discriminate].
Qed.

(** X2.  A plain fetch succeeds exactly when the status is 200 and the body
    is JSON, and it returns the decoded body as it is. *)
Theorem _get_doc_plain_success (path : pystr) (doc : pyobj) :
  _get_doc path false false false = Ok doc <->
  exists doc_id v,
    Couchfs._get_doc_id path = Ok doc_id /\
    status_code (get account doc_id) = OK /\
    decoded (get account doc_id) = Some v /\
    doc = ObjValue v.
Proof.
  rewrite _get_doc_unfold.
  destruct (_get_doc_id_total path) as [doc_id Hid]. rewrite Hid.
  cbn [bind]. unfold status_check. split.
  - destruct (status_code (get account doc_id) =? NOT_FOUND) eqn:E404;
      [discriminate|].
    destruct (status_code (get account doc_id) =? OK) eqn:E200;
      cbn [negb bind]; [|discriminate].
    apply Z.eqb_eq in E200.
    destruct (Couchfs._get_doc_body _) as [body|e] eqn:Hb; cbn [bind];
      [|discriminate].
    intros [= <-]. apply _get_doc_body_value in Hb as (v & Hv & ->).
    exists doc_id, v. auto.
  - intros (doc_id' & v & [= <-] & Hcode & Hv & ->).
    rewrite Hcode. cbn [Z.eqb OK NOT_FOUND Pos.eqb negb bind].
    now rewrite (_get_doc_body_decoded _ Hv).
Qed.

(** X3.  Whatever the flags, [_get_doc] fails in one of five ways; the only
    errno it ever hands to FUSE is [ENOENT]. *)
Theorem _get_doc_failures
    (path : pystr) (raw check_doc formated : bool) (e : exn) :
  _get_doc path raw check_doc formated = Raise e ->
  e = AssertionError \/ e = FuseOSError 2 \/ e = IndexError \/
  e = TypeError \/ e = NameError "EIO".
Proof.
  destruct raw; [cbn; intros [= <-]; auto|].
  rewrite _get_doc_unfold.
  destruct (_get_doc_id_total path) as [doc_id ->]. cbn [bind].
  unfold status_check.
  destruct (_ =? NOT_FOUND); [intros [= <-]; auto|].
  destruct (negb _); [intros [= <-]; auto|]. cbn [bind].
  unfold Couchfs._get_doc_body, json.
  destruct (decoded _) as [v|]; cbn; [|intros [= <-]; auto].
  assert (Hf : Couchfs._get_doc_formated float_repr (ObjValue v) = Raise e
               -> e = AssertionError).
  { unfold Couchfs._get_doc_formated.
    destruct (isinstance_dict _); [discriminate | now intros [= <-]]. }
  destruct check_doc; cbn [bind].
  - unfold is_doc at 1.
    destruct (isinstance_dict (ObjValue v)); cbn [bind];
      [|intros [= <-]; auto].
    destruct (truthy _); cbn [bind negb]; [|intros [= <-]; tauto].
    destruct formated; [intros H%Hf; auto | discriminate].
  - destruct formated; [intros H%Hf; auto | discriminate].
Qed.

(** X4.  A 404 at the fetched id is [FuseOSError(ENOENT)] in all three
    operations. *)
Theorem not_found_everywhere (path doc_id : pystr) (size offset fh : Z)
    (fh' : option Z) :
  str_eqb path (py "/") = false ->
  Couchfs._get_doc_id (slice_from path 1) = Ok doc_id ->
  status_code (get account doc_id) = NOT_FOUND ->
  read path size offset fh = Raise (FuseOSError 2) /\
  getattr path fh' = Raise (FuseOSError 2) /\
  readdir path fh = Raise (FuseOSError 2).
Proof.
  intros Hroot Hid Hcode.
  unfold Couchfs.read, Couchfs.getattr, Couchfs.readdir. rewrite Hroot.
  now rewrite !(@_get_doc_not_found float_repr account _ doc_id false _ _
                  Hid Hcode eq_refl).
Qed.

(** X5.  A body that decodes to something other than a dict (an array, a
    string, a number) stops all three operations at the [isinstance]
    assertion of [utils]. *)
Theorem non_dict_body_asserts (path : pystr) (doc : pyobj)
    (size offset fh : Z) (fh' : option Z) :
  str_eqb path (py "/") = false ->
  _get_doc (slice_from path 1) false false false = Ok doc ->
  isinstance_dict doc = None ->
  read path size offset fh = Raise AssertionError /\
  getattr path fh' = Raise AssertionError /\
  readdir path fh = Raise AssertionError.
Proof.
  intros Hroot Hdoc Hnd. split; [|split].
  - unfold Couchfs.read. rewrite _get_doc_checked_formated, Hdoc.
    cbn [bind]. now rewrite (is_doc_not_dict _ Hnd).
  - unfold Couchfs.getattr. rewrite Hroot, Hdoc. cbn [bind].
    now rewrite (is_db_not_dict _ Hnd).
  - unfold Couchfs.readdir. rewrite Hroot, Hdoc. cbn [bind].
    now rewrite (is_db_not_dict _ Hnd).
Qed.

End ResolutionMore.

(* ================================================================== *)
(** * Further properties: [read] *)
(* ================================================================== *)

Section SliceMore.

Context {A : Type}.
Implicit Types s : list A.

(** A slice with ordered bounds that are not negative is a [firstn] of
    a [skipn]; the clamping is theirs. *)
Lemma slice_firstn_skipn s (a b : Z) :
  0 <= a -> a <= b ->
  slice s a b = firstn (Z.to_nat (b - a)) (skipn (Z.to_nat a) s).
Proof.
  intros Ha Hab. unfold slice.
  pose proof (len_nonneg s) as Hn.
  rewrite !(slice_bound_nonneg Hn) by lia.
  destruct (Z.le_gt_cases (len s) a) as [Hpast|Hin].
  - replace (Z.min a (len s)) with (len s) by lia.
    rewrite !skipn_all2 by (unfold len in *; lia).
    now rewrite !firstn_nil.
  - replace (Z.min a (len s)) with a by lia.
    destruct (Z.le_gt_cases b (len s)) as [Hb|Hb].
    + now replace (Z.min b (len s)) with b by lia.
    + replace (Z.min b (len s)) with (len s) by lia.
      rewrite !firstn_all2; auto; rewrite length_skipn; unfold len in *; lia.
Qed.

Lemma firstn_plus (n m : nat) (l : list A) :
  firstn n l ++ firstn m (skipn n l) = firstn (n + m) l.
Proof.
  revert l; induction n as [|n IH]; intros [|x l]; cbn;
    try reflexivity.
  - now rewrite firstn_nil.
  - now rewrite IH.
Qed.

(** Two adjacent slices make the slice of their union. *)
Lemma slice_adjacent s (a n m : Z) :
  0 <= a -> 0 <= n -> 0 <= m ->
  slice s a (a + n) ++ slice s (a + n) (a + n + m) = slice s a (a + n + m).
Proof.
  intros Ha Hn Hm. rewrite !slice_firstn_skipn by lia.
  replace (a + n - a) with n by lia.
  replace (a + n + m - (a + n)) with m by lia.
  replace (a + n + m - a) with (n + m) by lia.
  rewrite !Z2Nat.inj_add by lia.
  rewrite (Nat.add_comm (Z.to_nat a)), <- skipn_skipn.
  apply firstn_plus.
Qed.

(** Every element of a slice is an element of the sequence. *)
Lemma Forall_slice (P : A -> Prop) s (a b : Z) :
  Forall P s -> Forall P (slice s a b).
Proof.
  intros H. unfold slice.
  set (k := Z.to_nat (slice_bound (len s) a)).
  set (j := Z.to_nat _).
  rewrite <- (firstn_skipn k s) in H. apply Forall_app in H as [_ H].
  rewrite <- (firstn_skipn j (skipn k s)) in H.
  now apply Forall_app in H as [H _].
Qed.

End SliceMore.

Lemma byte_to_N_of_N (c : N) : (c < 256)%N -> Byte.to_N (byte_of_N c) = c.
Proof.
  intros H. unfold byte_of_N. rewrite N.mod_small by exact H.
  pose proof (Byte.to_of_N_option_map c) as E.
  replace (N.leb c 255) with true in E by (symmetry; apply N.leb_le; lia).
  destruct (Byte.of_N c); cbn in E; congruence.
Qed.

Section ReadMore.

Variable float_repr : spec_float -> pystr.
Hypothesis float_repr_ascii : forall f, ascii_str (float_repr f).
Variable tuple_str : list pystr -> pystr.
Variable account : Account.

#[local] Abbreviation _get_doc := (Couchfs._get_doc float_repr account).
#[local] Abbreviation read := (Couchfs.read float_repr account).
#[local] Abbreviation getattr := (Couchfs.getattr float_repr account).
#[local] Abbreviation readdir :=
  (Couchfs.readdir float_repr tuple_str account).

(** X9.  Reading a file in consecutive chunks gives the same bytes as one
    read of the whole range. *)
Theorem read_chunks_concatenate (path : pystr) (body : pyobj)
    (content : pybytes) (offset n m fh : Z) :
  _get_doc (slice_from path 1) false true true = Ok body ->
  obj_encode body = Ok content ->
  0 <= offset -> 0 <= n -> 0 <= m ->
  exists first second whole,
    read path n offset fh = Ok first /\
    read path m (offset + n) fh = Ok second /\
    read path (n + m) offset fh = Ok whole /\
    whole = first ++ second.
Proof.
  intros Hbody Henc Ho Hn Hm.
  do 3 eexists.
  rewrite !(fun size off =>
              @read_slice float_repr account path body content size off fh
                Hbody Henc).
  repeat split. rewrite Z.add_assoc. symmetry. now apply slice_adjacent.
Qed.

(** X10.  A read never returns more than [size] bytes, and what it returns
    is the block of the content that starts at [offset] (at the end of
    the content when [offset] is past it). *)
Theorem read_is_a_block (path : pystr) (body : pyobj)
    (content : pybytes) (size offset fh : Z) :
  _get_doc (slice_from path 1) false true true = Ok body ->
  obj_encode body = Ok content ->
  0 <= offset -> 0 <= size ->
  exists data before after,
    read path size offset fh = Ok data /\
    content = before ++ data ++ after /\
    len before = Z.min offset (len content) /\
    len data <= size.
Proof.
  intros Hbody Henc Ho Hs.
  exists (slice content offset (offset + size)),
         (firstn (Z.to_nat offset) content),
         (skipn (Z.to_nat size) (skipn (Z.to_nat offset) content)).
  split; [now apply read_slice with body|].
  rewrite slice_firstn_skipn by lia.
  replace (offset + size - offset) with size by lia.
  split; [now rewrite !firstn_skipn|]. split.
  - unfold len. rewrite length_firstn. lia.
  - unfold len. rewrite length_firstn. lia.
Qed.

(** X11.  On a fetched object that [is_doc] accepts, [read] succeeds for
    every size and offset, negative ones included, and every byte it
    returns is ASCII: the encoding step cannot fail, whatever
    characters the document holds. *)
Theorem read_document_total (path : pystr) (doc : pyobj)
    (size offset fh : Z) :
  _get_doc (slice_from path 1) false false false = Ok doc ->
  is_doc doc = Ok true ->
  exists data,
    read path size offset fh = Ok data /\
    Forall (fun b => (Byte.to_N b < 128)%N) data.
Proof.
  intros Hdoc Hisdoc.
  destruct (is_doc_inv _ Hisdoc) as [d ->].
  pose proof (@iterencode_ascii float_repr float_repr_ascii (VDict d) 0%nat)
    as Hascii.
  exists (slice (List.map byte_of_N (dumps_indent2 float_repr (VDict d)))
            offset (offset + size)).
  split.
  - apply read_slice
      with (body := ObjValue (VStr (dumps_indent2 float_repr (VDict d)))).
    + now rewrite _get_doc_checked_formated, Hdoc; cbn [bind];
        rewrite Hisdoc.
    + now apply encode_ascii.
  - apply Forall_slice, Forall_map.
    revert Hascii. apply Forall_impl. intros c Hc.
    rewrite byte_to_N_of_N; lia.
Qed.

End ReadMore.

(* ================================================================== *)
(** * Further properties: [utils], [getattr], [readdir] *)
(* ================================================================== *)

Section ClassifierMore.

(** [d.get(key)] is a true value exactly when the key is present with
    a true value: a missing key and a key bound to [None], [0], [''] or
    an empty container are the same to the caller. *)
Lemma dict_get_truthy_iff (d : list (pystr * value)) (key : pystr) :
  truthy (dict_get d key) = true <->
  exists v, dict_getitem d key = Ok v /\ truthy v = true.
Proof.
  induction d as [|[k v] d IH]; cbn.
  - split; [discriminate | intros (v & [=] & _)].
  - destruct (str_eqb k key); [|exact IH].
    split; [eauto | intros (v' & [= <-] & H); exact H].
Qed.

(** X18.  [is_db] answers on every dict, and says yes exactly when both
    [db_name] and [update_seq] are present with true values; [is_doc]
    likewise with [_id] and [_rev]. *)
Theorem is_db_is_doc_presence (d : list (pystr * value)) :
  (is_db (ObjValue (VDict d)) = Ok true <->
   exists name seq,
     dict_getitem d (py "db_name") = Ok name /\ truthy name = true /\
     dict_getitem d (py "update_seq") = Ok seq /\ truthy seq = true) /\
  (is_db (ObjValue (VDict d)) = Ok true \/
   is_db (ObjValue (VDict d)) = Ok false) /\
  (is_doc (ObjValue (VDict d)) = Ok true <->
   exists i rev,
     dict_getitem d (py "_id") = Ok i /\ truthy i = true /\
     dict_getitem d (py "_rev") = Ok rev /\ truthy rev = true) /\
  (is_doc (ObjValue (VDict d)) = Ok true \/
   is_doc (ObjValue (VDict d)) = Ok false).
Proof.
  rewrite is_db_dict, is_doc_dict.
  assert (Hiff : forall k1 k2,
    Ok (truthy (dict_get d k1) && truthy (dict_get d k2)) = Ok true <->
    exists a b, dict_getitem d k1 = Ok a /\ truthy a = true /\
                dict_getitem d k2 = Ok b /\ truthy b = true).
  { intros k1 k2. split.
    - intros [= H]. apply andb_true_iff in H as [H1 H2].
      apply dict_get_truthy_iff in H1 as (a & Ha & Ta).
      apply dict_get_truthy_iff in H2 as (b & Hb & Tb).
      exists a, b. auto.
    - intros (a & b & Ha & Ta & Hb & Tb).
      assert (H1 : truthy (dict_get d k1) = true)
        by (apply dict_get_truthy_iff; eauto).
      assert (H2 : truthy (dict_get d k2) = true)
        by (apply dict_get_truthy_iff; eauto).
      now rewrite H1, H2. }
  split; [apply Hiff|]. split; [destruct (_ && _); auto|].
  split; [apply Hiff|]. destruct (_ && _); auto.
Qed.

End ClassifierMore.

Section DirectoryMore.

Variable float_repr : spec_float -> pystr.
Hypothesis float_repr_ascii : forall f, ascii_str (float_repr f).
Variable tuple_str : list pystr -> pystr.
Variable account : Account.

#[local] Abbreviation _get_doc := (Couchfs._get_doc float_repr account).
#[local] Abbreviation read := (Couchfs.read float_repr account).
#[local] Abbreviation getattr := (Couchfs.getattr float_repr account).
#[local] Abbreviation readdir :=
  (Couchfs.readdir float_repr tuple_str account).

(** X13.  Whatever [getattr] returns has one of two modes, directory or
    regular file, each with the permission bits 0o755; a link count of
    at least 1; and, when a size is reported, a size that is not
    negative. *)
Theorem getattr_well_formed (path : pystr) (fh : option Z)
    (attrs : stat_dict) :
  getattr path fh = Ok attrs ->
  exists mode nlink,
    stat_get attrs "st_mode" = Some mode /\
    (mode = Z.lor S_IFDIR mode_0o755 \/ mode = Z.lor S_IFREG mode_0o755) /\
    Z.land mode 511 = mode_0o755 /\
    stat_get attrs "st_nlink" = Some nlink /\
    1 <= nlink /\
    (forall size, stat_get attrs "st_size" = Some size -> 0 <= size).
Proof.
  assert (Hshape : forall file_type nlink (size : option Z),
    file_type = S_IFDIR \/ file_type = S_IFREG ->
    1 <= nlink ->
    (forall n, size = Some n -> 0 <= n) ->
    let attrs :=
      ("st_mode"%string, Z.lor file_type mode_0o755) ::
      ("st_nlink"%string, nlink) ::
      match size with
      | Some n => [("st_size"%string, n)]
      | None => []
      end in
    exists mode nlink,
      stat_get attrs "st_mode" = Some mode /\
      (mode = Z.lor S_IFDIR mode_0o755 \/
       mode = Z.lor S_IFREG mode_0o755) /\
      Z.land mode 511 = mode_0o755 /\
      stat_get attrs "st_nlink" = Some nlink /\
      1 <= nlink /\
      (forall size, stat_get attrs "st_size" = Some size -> 0 <= size)).
  { intros file_type nlink size Htype Hlink Hsize attrs'.
    exists (Z.lor file_type mode_0o755), nlink.
    split; [reflexivity|]. split; [destruct Htype as [-> | ->]; auto|].
    split; [destruct Htype as [-> | ->]; reflexivity|].
    split; [reflexivity|]. split; [exact Hlink|].
    subst attrs'. destruct size as [n|]; cbn; [|discriminate].
    intros size [= <-]. now apply Hsize. }
  unfold Couchfs.getattr.
  destruct (str_eqb path (py "/")).
  - intros H. assert (Hattrs : attrs =
      [("st_mode"%string, Z.lor S_IFDIR mode_0o755);
       ("st_nlink"%string, 2 + len (Couchfs._all_dbs account))])
      by congruence.
    rewrite Hattrs.
    apply (Hshape S_IFDIR (2 + len (Couchfs._all_dbs account)) None);
      auto; [|discriminate].
    pose proof (len_nonneg (Couchfs._all_dbs account)). lia.
  - destruct (_get_doc _ _ _ _) as [doc|e]; cbn [bind]; [|discriminate].
    destruct (is_db doc) as [[|]|e]; cbn [bind]; [| |discriminate].
    + intros [= <-]. apply (Hshape S_IFDIR 2 (Some 4096)); auto; try lia.
      intros n [= <-]. lia.
    + destruct (is_doc doc) as [[|]|e] eqn:Hd; cbn [bind]; [| |discriminate].
      * destruct (is_doc_inv _ Hd) as [d ->].
        cbn [Couchfs._get_doc_formated isinstance_dict bind obj_len].
        intros [= <-]. apply (Hshape S_IFREG 1 (Some _)); auto; try lia.
        intros n [= <-]. apply len_nonneg.
      * intros [= <-]. apply (Hshape S_IFREG 1 (Some 0)); auto; try lia.
        intros n [= <-]. lia.
Qed.

End DirectoryMore.

Section ListingMore.

Variable float_repr : spec_float -> pystr.
Hypothesis float_repr_ascii : forall f, ascii_str (float_repr f).
Variable tuple_str : list pystr -> pystr.
Variable account : Account.

#[local] Abbreviation _get_doc := (Couchfs._get_doc float_repr account).
#[local] Abbreviation read := (Couchfs.read float_repr account).
#[local] Abbreviation getattr := (Couchfs.getattr float_repr account).
#[local] Abbreviation readdir :=
  (Couchfs.readdir float_repr tuple_str account).

Lemma dict_getitem_get (d : list (pystr * value)) (key : pystr) (v : value) :
  dict_getitem d key = Ok v -> dict_get d key = v.
Proof.
  induction d as [|[k w] d IH]; cbn; [discriminate|].
  destruct (str_eqb k key); [now intros [= <-] | exact IH].
Qed.

Lemma slice_from_1 (c : N) (s : pystr) : slice_from (c :: s) 1 = s.
Proof.
  unfold slice_from.
  rewrite slice_bound_nonneg by (auto using len_nonneg; lia).
  replace (Z.min 1 (len (c :: s))) with 1; [reflexivity|].
  unfold len. cbn [List.length]. lia.
Qed.

Lemma slice_from_slash (s : pystr) : slice_from (py "/" ++ s) 1 = s.
Proof. exact (slice_from_1 47%N s). Qed.


(** X16.  The listing of a database is complete and in order: one name per
    row of [all_docs()] outside the design namespace, in the order of
    the rows, and nothing else after ['.'] and ['..']. *)
Theorem readdir_complete (path : pystr) (doc : pyobj) (fh : Z) :
  str_eqb path (py "/") = false ->
  _get_doc (slice_from path 1) false false false = Ok doc ->
  is_db doc = Ok true ->
  exists name children,
    obj_getitem doc (py "db_name") = Ok name /\
    readdir path fh = Ok (Some (py "." :: py ".." :: children)) /\
    children =
      List.map (fun x => id x ++ py ".json")
        (filter (fun x => negb (startswith (id x) (py "_design/")))
           (all_docs (getitem account name))) /\
    (forall x, In x (all_docs (getitem account name)) ->
       startswith (id x) (py "_design/") = false ->
       In (id x ++ py ".json") children) /\
    (List.length children
     <= List.length (all_docs (getitem account name)))%nat.
Proof.
  intros Hroot Hdoc Hdb.
  destruct (@readdir_database float_repr tuple_str account path doc fh
              Hroot Hdoc Hdb) as (name & Hname & Hdir).
  assert (Hf : forall rows,
    filter listed rows =
    filter (fun x => negb (startswith (id x) (py "_design/"))) rows).
  { intros rows. apply filter_ext. intros x. unfold listed.
    now destruct (startswith _ _). }
  rewrite Hf in Hdir.
  exists name. eexists. split; [exact Hname|]. split; [exact Hdir|].
  split; [reflexivity|]. split.
  - intros x Hx Hkeep. apply in_map_iff. exists x. split; [reflexivity|].
    apply filter_In. now rewrite Hkeep.
  - rewrite length_map. apply filter_length_le.
Qed.

(** X17.  Listing and resolution fit together: for a database at [/db], the
    name listed for a row leads, as the path [/db/name], to a fetch of
    the address [db/id] of that row. *)
Theorem listed_name_resolves (db : pystr) (doc : pyobj) (fh : Z) :
  str_eqb (py "/" ++ db) (py "/") = false ->
  _get_doc db false false false = Ok doc ->
  is_db doc = Ok true ->
  exists name children,
    obj_getitem doc (py "db_name") = Ok name /\
    readdir (py "/" ++ db) fh = Ok (Some (py "." :: py ".." :: children)) /\
    Forall (fun child =>
              exists x,
                In x (all_docs (getitem account name)) /\
                child = id x ++ py ".json" /\
                Couchfs._get_doc_id
                  (slice_from (py "/" ++ db ++ py "/" ++ child) 1)
                = Ok (db ++ py "/" ++ id x))
           children.
Proof.
  intros Hroot Hdoc Hdb.
  assert (Hdoc' : _get_doc (slice_from (py "/" ++ db) 1) false false false
                  = Ok doc) by now rewrite slice_from_slash.
  destruct (@readdir_database float_repr tuple_str account _ doc fh
              Hroot Hdoc' Hdb) as (name & Hname & Hdir).
  exists name. eexists. split; [exact Hname|]. split; [exact Hdir|].
  apply Forall_forall. intros child Hin.
  apply in_map_iff in Hin as (x & <- & Hx).
  apply filter_In in Hx as [Hx _].
  exists x. split; [exact Hx|]. split; [reflexivity|].
  rewrite slice_from_slash.
  replace (db ++ py "/" ++ id x ++ py ".json")
    with ((db ++ py "/" ++ id x) ++ py ".json")
    by now rewrite <- !app_assoc.
  apply _get_doc_id_suffix.
Qed.

(** X19.  A database whose [update_seq] is the integer 0 fails the truth
    test of [is_db]: if it is no document either, [getattr] shows an
    empty regular file and [readdir] returns [None]. *)
Theorem zero_update_seq_is_no_database (path : pystr)
    (d : list (pystr * value)) (fh : Z) (fh' : option Z) :
  str_eqb path (py "/") = false ->
  _get_doc (slice_from path 1) false false false = Ok (ObjValue (VDict d)) ->
  dict_getitem d (py "update_seq") = Ok (VInt 0) ->
  is_doc (ObjValue (VDict d)) = Ok false ->
  is_db (ObjValue (VDict d)) = Ok false /\
  getattr path fh' =
    Ok [("st_mode"%string, Z.lor S_IFREG mode_0o755);
        ("st_nlink"%string, 1); ("st_size"%string, 0)] /\
  readdir path fh = Ok None.
Proof.
  intros Hroot Hdoc Hseq Hnodoc.
  assert (Hdb : is_db (ObjValue (VDict d)) = Ok false).
  { rewrite is_db_dict, (dict_getitem_get _ _ Hseq). cbn.
    now rewrite andb_false_r. }
  split; [exact Hdb|]. split.
  - unfold Couchfs.getattr. rewrite Hroot, Hdoc. cbn [bind].
    rewrite Hdb. cbn [bind]. now rewrite Hnodoc.
  - now apply readdir_is_db_false with (doc := ObjValue (VDict d)).
Qed.

(** X20.  [is_db] goes first in [getattr] and [readdir], and [read] asks
    [is_doc] only: an object that passes both tests is shown as a
    directory of size 4096; a listing of it, when [readdir] returns
    one, is a tuple and not [None]; and a read of the same path still
    serves its formatted text. *)
Theorem database_test_goes_first (path : pystr) (doc : pyobj)
    (fh : Z) (fh' : option Z) :
  str_eqb path (py "/") = false ->
  _get_doc (slice_from path 1) false false false = Ok doc ->
  is_db doc = Ok true ->
  is_doc doc = Ok true ->
  getattr path fh' =
    Ok [("st_mode"%string, Z.lor S_IFDIR mode_0o755);
        ("st_nlink"%string, 2); ("st_size"%string, 4096)] /\
  (forall listing, readdir path fh = Ok listing -> listing <> None) /\
  (exists text content,
     Couchfs._get_doc_formated float_repr doc = Ok (ObjValue (VStr text)) /\
     encode text = Ok content /\
     forall size, len content <= size -> read path size 0 fh = Ok content).
Proof.
  intros Hroot Hdoc Hdb Hisdoc. split; [|split].
  - unfold Couchfs.getattr. rewrite Hroot, Hdoc. cbn [bind].
    now rewrite Hdb.
  - intros listing Hlist ->.
    unfold Couchfs.readdir in Hlist. rewrite Hroot, Hdoc in Hlist.
    cbn [bind] in Hlist. rewrite Hdb in Hlist. cbn [bind] in Hlist.
    destruct (obj_getitem _ _); cbn [bind] in Hlist; [|discriminate].
    destruct (mapM _ _); cbn [bind] in Hlist; [|discriminate].
    destruct (format _ _); cbn [bind] in Hlist; discriminate.
  - destruct (@document_content float_repr float_repr_ascii doc Hisdoc)
      as (text & content & Hf & He & _).
    exists text, content. split; [exact Hf|]. split; [exact He|].
    intros size Hsize.
    rewrite (@read_slice float_repr account path (ObjValue (VStr text))
               content size 0 fh).
    + now rewrite Z.add_0_l, slice_whole.
    + now rewrite _get_doc_checked_formated, Hdoc; cbn [bind];
        rewrite Hisdoc; cbn [negb]; rewrite Hf.
    + exact He.
Qed.

End ListingMore.

(* ================================================================== *)
(** * Further properties: construction and the command line *)
(* ================================================================== *)

Section ProgramFacts.

Variable connect : pystr -> option (value * value) -> Account.

(** X21.  [__init__] fails only on a user without a password, and then with
    [AssertionError].  What it builds keeps either no credential, when
    no user (or an empty one) was given, whatever the password; or the
    pair of a user and a password that are both true values.  The
    account is opened with exactly that credential. *)
Theorem init_outcome (uri : pystr) (user passwd : value) :
  match Program.__init__ connect uri user passwd with
  | Ok fs =>
      Program.couch_uri fs = uri /\
      Program.account fs = connect uri (Program.credential fs) /\
      match Program.credential fs with
      | None => truthy user = false
      | Some (u, p) =>
          u = user /\ p = passwd /\
          truthy u = true /\ truthy p = true
      end
  | Raise e =>
      e = AssertionError /\ truthy user = true /\ truthy passwd = false
  end.
Proof.
  unfold Program.__init__.
  destruct (truthy user) eqn:Hu.
  - destruct (truthy passwd) eqn:Hp; cbn; repeat split; assumption.
  - cbn. repeat split.
Qed.

(** X22.  The command line decides between two outcomes by the number of
    arguments alone.  With exactly two arguments after the program
    name the file system is mounted at the second, in the foreground
    and without threads, on an account opened for the first with no
    credential: the command line has no way to pass a user.  With any
    other number the usage line names the program and the exit status
    is 1; only an empty [argv] fails, at [argv[0]]. *)
Theorem main_outcome (argv : list pystr) :
  Program.main connect argv =
  match argv with
  | [] => Raise IndexError
  | [argv0; argv1; argv2] =>
      Ok (Program.Mounted
            {| Program.credential := None;
               Program.couch_uri := argv1;
               Program.account := connect argv1 None |}
            argv2 true true)
  | argv0 :: _ =>
      Ok (Program.Exited
            [py "usage: " ++ argv0 ++ py " <uri> <mountpoint>"] 1)
  end.
Proof.
  assert (Husage : forall a,
    format (py "usage: {} <uri> <mountpoint>") [a]
    = Ok (py "usage: " ++ a ++ py " <uri> <mountpoint>")).
  { intros a. reflexivity. }
  unfold Program.main.
  destruct argv as [|a0 [|a1 [|a2 [|a3 rest]]]]; try reflexivity;
    try (cbn [len List.length Z.of_nat Pos.of_succ_nat Pos.succ Z.eqb
              Pos.eqb negb Program.list_index nth_error bind];
         now rewrite Husage).
  replace (len (a0 :: a1 :: a2 :: a3 :: rest) =? 3) with false.
  - cbn [negb Program.list_index nth_error bind]. now rewrite Husage.
  - symmetry. apply Z.eqb_neq. unfold len. cbn [List.length]. lia.
Qed.

End ProgramFacts.

(* ================================================================== *)
(** * Further properties: the earlier module *)
(* ================================================================== *)

Section CouchFuseMore.

Variable tuple_str : list pystr -> pystr.
Variable account : Account.

(** X23.  In the earlier module the [raw] mode works: a fetch succeeds
    exactly when the status is 200 and the body is JSON, and it returns
    the response itself when [raw] is set, the decoded body otherwise.
    The path is fetched as it is, with no suffix removed. *)
Theorem couch_fuse_get_doc_success (path : pystr) (raw : bool) (o : pyobj) :
  CouchFuse._get_doc account path raw = Ok o <->
  status_code (get account path) = OK /\
  exists v,
    decoded (get account path) = Some v /\
    o = if raw then ObjResponse (get account path) else ObjValue v.
Proof.
  rewrite couch_fuse_get_doc_unfold. unfold status_check. split.
  - destruct (_ =? NOT_FOUND); [discriminate|].
    destruct (status_code (get account path) =? OK) eqn:E;
      cbn [negb bind]; [|discriminate].
    apply Z.eqb_eq in E.
    destruct (decoded _) as [v|]; [|discriminate].
    intros [= <-]. eauto.
  - intros (Hcode & v & Hv & ->). rewrite Hcode, Hv. reflexivity.
Qed.

(** X25.  The earlier [readdir] lists the ids themselves, with no suffix:
    the ids of the rows outside the design namespace, in their order. *)
Theorem couch_fuse_readdir_lists_ids (path : pystr) (doc : pyobj) (fh : Z) :
  str_eqb path (py "/") = false ->
  CouchFuse._get_doc account (slice_from path 1) false = Ok doc ->
  is_db doc = Ok true ->
  exists name children,
    obj_getitem doc (py "db_name") = Ok name /\
    CouchFuse.readdir tuple_str account path fh
    = Ok (Some (py "." :: py ".." :: children)) /\
    children =
      List.map (fun x => id x)
        (filter (fun x => negb (startswith (id x) (py "_design/")))
           (all_docs (getitem account name))) /\
    Forall (fun child => startswith child (py "_design/") = false) children.
Proof.
  intros Hroot Hdoc Hdb.
  destruct (is_db_inv _ Hdb) as [d ->].
  pose proof Hdb as Hfields. rewrite is_db_dict in Hfields.
  injection Hfields as Hfields.
  apply andb_true_iff in Hfields as [Hname _].
  pose proof (dict_getitem_truthy d _ Hname) as Hget.
  exists (dict_get d (py "db_name")). eexists.
  split; [exact Hget|].
  assert (Hf : forall rows,
    filter (fun x => if startswith (id x) (py "_design/")
                     then false else true) rows =
    filter (fun x => negb (startswith (id x) (py "_design/"))) rows).
  { intros rows. apply filter_ext. intros x. now destruct (startswith _ _). }
  split; [|split; [reflexivity|]].
  - unfold CouchFuse.readdir. rewrite Hroot, Hdoc. cbn [bind].
    rewrite Hdb. cbn [bind obj_getitem]. rewrite Hget. cbn [bind].
    rewrite Hf.
    match goal with
    | |- context [format _ [?a; ?b]] =>
        destruct (format_all_docs a b) as [msg ->]
    end.
    reflexivity.
  - apply Forall_forall. intros child Hin.
    apply in_map_iff in Hin as (x & <- & Hx).
    apply filter_In in Hx as [_ Hkeep].
    now destruct (startswith _ _).
Qed.

End CouchFuseMore.

(* ================================================================== *)
(** * The further properties on the example accounts *)
(* ================================================================== *)

(** [/nowhere] is a 404. *)
Lemma _get_doc_failures_witness :
  Couchfs._get_doc Scenario.float_repr Scenario.account (py "nowhere")
    false true true = Raise (FuseOSError 2) /\
  (FuseOSError 2 = AssertionError \/ FuseOSError 2 = FuseOSError 2 \/
   FuseOSError 2 = IndexError \/ FuseOSError 2 = TypeError \/
   FuseOSError 2 = NameError "EIO").
Proof.
  split; [reflexivity|].
  apply (@_get_doc_failures Scenario.float_repr Scenario.account
           (py "nowhere") false true true (FuseOSError 2)).
  reflexivity.
Defined.

Lemma not_found_everywhere_witness :
  str_eqb (py "/nowhere") (py "/") = false /\
  Couchfs._get_doc_id (slice_from (py "/nowhere") 1) = Ok (py "nowhere") /\
  status_code (get Scenario.account (py "nowhere")) = NOT_FOUND /\
  Couchfs.read Scenario.float_repr Scenario.account (py "/nowhere") 10 0 0
  = Raise (FuseOSError 2) /\
  Couchfs.getattr Scenario.float_repr Scenario.account (py "/nowhere") None
  = Raise (FuseOSError 2) /\
  Couchfs.readdir Scenario.float_repr Scenario.tuple_str Scenario.account
    (py "/nowhere") 0 = Raise (FuseOSError 2).
Proof.
  split; [reflexivity|]. split; [reflexivity|]. split; [reflexivity|].
  apply (@not_found_everywhere Scenario.float_repr Scenario.tuple_str
           Scenario.account (py "/nowhere") (py "nowhere") 10 0 0 None);
    reflexivity.
Defined.

(** [/_all_dbs] answers with an array. *)
Lemma non_dict_body_asserts_witness :
  str_eqb (py "/_all_dbs") (py "/") = false /\
  Couchfs._get_doc Scenario.float_repr Scenario.account
    (slice_from (py "/_all_dbs") 1) false false false
  = Ok (ObjValue Scenario.names) /\
  isinstance_dict (ObjValue Scenario.names) = None /\
  Couchfs.read Scenario.float_repr Scenario.account (py "/_all_dbs") 10 0 0
  = Raise AssertionError /\
  Couchfs.getattr Scenario.float_repr Scenario.account (py "/_all_dbs") None
  = Raise AssertionError /\
  Couchfs.readdir Scenario.float_repr Scenario.tuple_str Scenario.account
    (py "/_all_dbs") 0 = Raise AssertionError.
Proof.
  split; [reflexivity|]. split; [reflexivity|]. split; [reflexivity|].
  apply (@non_dict_body_asserts Scenario.float_repr Scenario.tuple_str
           Scenario.account (py "/_all_dbs") (ObjValue Scenario.names)
           10 0 0 None);
    reflexivity.
Defined.

(** Two reads of 20 and 40 octets of [/alpha/doc1.json] from offset
    5. *)
Lemma read_chunks_concatenate_witness :
  Couchfs._get_doc Scenario.float_repr Scenario.account
    (slice_from (py "/alpha/doc1.json") 1) false true true
  = Ok (ObjValue
          (VStr (dumps_indent2 Scenario.float_repr Scenario.doc1))) /\
  obj_encode
    (ObjValue (VStr (dumps_indent2 Scenario.float_repr Scenario.doc1)))
  = Ok (List.map byte_of_N
          (dumps_indent2 Scenario.float_repr Scenario.doc1)) /\
  0 <= 5 /\ 0 <= 20 /\ 0 <= 40 /\
  exists first second whole,
    Couchfs.read Scenario.float_repr Scenario.account
      (py "/alpha/doc1.json") 20 5 0 = Ok first /\
    Couchfs.read Scenario.float_repr Scenario.account
      (py "/alpha/doc1.json") 40 (5 + 20) 0 = Ok second /\
    Couchfs.read Scenario.float_repr Scenario.account
      (py "/alpha/doc1.json") (20 + 40) 5 0 = Ok whole /\
    whole = first ++ second.
Proof.
  split; [reflexivity|]. split; [reflexivity|].
  split; [lia|]. split; [lia|]. split; [lia|].
  apply (@read_chunks_concatenate Scenario.float_repr Scenario.account
           (py "/alpha/doc1.json") _ _ 5 20 40 0 eq_refl eq_refl); lia.
Defined.

Lemma read_is_a_block_witness :
  Couchfs._get_doc Scenario.float_repr Scenario.account
    (slice_from (py "/alpha/doc1.json") 1) false true true
  = Ok (ObjValue
          (VStr (dumps_indent2 Scenario.float_repr Scenario.doc1))) /\
  obj_encode
    (ObjValue (VStr (dumps_indent2 Scenario.float_repr Scenario.doc1)))
  = Ok (List.map byte_of_N
          (dumps_indent2 Scenario.float_repr Scenario.doc1)) /\
  0 <= 40 /\ 0 <= 100 /\
  exists data before after,
    Couchfs.read Scenario.float_repr Scenario.account
      (py "/alpha/doc1.json") 100 40 0 = Ok data /\
    List.map byte_of_N (dumps_indent2 Scenario.float_repr Scenario.doc1)
    = before ++ data ++ after /\
    len before =
      Z.min 40
        (len (List.map byte_of_N
                (dumps_indent2 Scenario.float_repr Scenario.doc1))) /\
    len data <= 100.
Proof.
  split; [reflexivity|]. split; [reflexivity|].
  split; [lia|]. split; [lia|].
  apply (@read_is_a_block Scenario.float_repr Scenario.account
           (py "/alpha/doc1.json") _ _ 100 40 0 eq_refl eq_refl); lia.
Defined.

Lemma read_document_total_witness :
  (forall f, ascii_str (Scenario.float_repr f)) /\
  Couchfs._get_doc Scenario.float_repr Scenario.account
    (slice_from (py "/alpha/doc1.json") 1) false false false
  = Ok (ObjValue Scenario.doc1) /\
  is_doc (ObjValue Scenario.doc1) = Ok true /\
  exists data,
    Couchfs.read Scenario.float_repr Scenario.account
      (py "/alpha/doc1.json") 16 (-8) 0 = Ok data /\
    Forall (fun b => (Byte.to_N b < 128)%N) data.
Proof.
  split; [exact scenario_float_repr_ascii|].
  split; [reflexivity|]. split; [reflexivity|].
  apply (@read_document_total Scenario.float_repr
           scenario_float_repr_ascii Scenario.account
           (py "/alpha/doc1.json") (ObjValue Scenario.doc1) 16 (-8) 0);
    reflexivity.
Defined.

Lemma getattr_well_formed_witness :
  Couchfs.getattr Scenario.float_repr Scenario.account (py "/alpha") None
  = Ok [("st_mode"%string, 16877); ("st_nlink"%string, 2);
        ("st_size"%string, 4096)] /\
  exists mode nlink,
    stat_get [("st_mode"%string, 16877); ("st_nlink"%string, 2);
              ("st_size"%string, 4096)] "st_mode" = Some mode /\
    (mode = Z.lor S_IFDIR mode_0o755 \/ mode = Z.lor S_IFREG mode_0o755) /\
    Z.land mode 511 = mode_0o755 /\
    stat_get [("st_mode"%string, 16877); ("st_nlink"%string, 2);
              ("st_size"%string, 4096)] "st_nlink" = Some nlink /\
    1 <= nlink /\
    (forall size,
       stat_get [("st_mode"%string, 16877); ("st_nlink"%string, 2);
                 ("st_size"%string, 4096)] "st_size" = Some size ->
       0 <= size).
Proof.
  split; [reflexivity|].
  apply (@getattr_well_formed Scenario.float_repr Scenario.account
           (py "/alpha") None). reflexivity.
Defined.

Lemma getattr_by_kind_witness :
  str_eqb (py "/alpha") (py "/") = false /\
  Couchfs._get_doc Scenario.float_repr Scenario.account
    (slice_from (py "/alpha") 1) false false false
  = Ok (ObjValue Scenario.alpha) /\
  classify (ObjValue Scenario.alpha) = Ok DatabaseDescriptor /\
  Couchfs.getattr Scenario.float_repr Scenario.account (py "/alpha") None
  = Ok [("st_mode"%string, Z.lor S_IFDIR mode_0o755);
        ("st_nlink"%string, 2); ("st_size"%string, 4096)].
Proof.
  split; [reflexivity|]. split; [reflexivity|]. split; [reflexivity|].
  apply (@getattr_by_kind Scenario.float_repr Scenario.account
           (py "/alpha") (ObjValue Scenario.alpha) None eq_refl eq_refl).
  reflexivity.
Defined.


(** [/hybrid] lists the rows [a] and [b.json] and leaves the design
    document out. *)
Lemma readdir_complete_witness :
  str_eqb (py "/hybrid") (py "/") = false /\
  Couchfs._get_doc Scenario.float_repr Fixture.account
    (slice_from (py "/hybrid") 1) false false false
  = Ok (ObjValue Fixture.hybrid) /\
  is_db (ObjValue Fixture.hybrid) = Ok true /\
  exists name children,
    obj_getitem (ObjValue Fixture.hybrid) (py "db_name") = Ok name /\
    Couchfs.readdir Scenario.float_repr Scenario.tuple_str Fixture.account
      (py "/hybrid") 0
    = Ok (Some (py "." :: py ".." :: children)) /\
    children =
      List.map (fun x => id x ++ py ".json")
        (filter (fun x => negb (startswith (id x) (py "_design/")))
           (all_docs (getitem Fixture.account name))) /\
    (forall x, In x (all_docs (getitem Fixture.account name)) ->
       startswith (id x) (py "_design/") = false ->
       In (id x ++ py ".json") children) /\
    (List.length children
     <= List.length (all_docs (getitem Fixture.account name)))%nat.
Proof.
  split; [reflexivity|]. split; [reflexivity|]. split; [reflexivity|].
  apply (@readdir_complete Scenario.float_repr Scenario.tuple_str
           Fixture.account (py "/hybrid") (ObjValue Fixture.hybrid) 0);
    reflexivity.
Defined.

Lemma listed_name_resolves_witness :
  str_eqb (py "/" ++ py "hybrid") (py "/") = false /\
  Couchfs._get_doc Scenario.float_repr Fixture.account
    (py "hybrid") false false false
  = Ok (ObjValue Fixture.hybrid) /\
  is_db (ObjValue Fixture.hybrid) = Ok true /\
  exists name children,
    obj_getitem (ObjValue Fixture.hybrid) (py "db_name") = Ok name /\
    Couchfs.readdir Scenario.float_repr Scenario.tuple_str Fixture.account
      (py "/" ++ py "hybrid") 0
    = Ok (Some (py "." :: py ".." :: children)) /\
    Forall (fun child =>
              exists x,
                In x (all_docs (getitem Fixture.account name)) /\
                child = id x ++ py ".json" /\
                Couchfs._get_doc_id
                  (slice_from (py "/" ++ py "hybrid" ++ py "/" ++ child) 1)
                = Ok (py "hybrid" ++ py "/" ++ id x))
           children.
Proof.
  split; [reflexivity|]. split; [reflexivity|]. split; [reflexivity|].
  apply (@listed_name_resolves Scenario.float_repr Scenario.tuple_str
           Fixture.account (py "hybrid") (ObjValue Fixture.hybrid) 0);
    reflexivity.
Defined.

(** [/fresh] is a database no document was written to yet. *)
Lemma zero_update_seq_is_no_database_witness :
  str_eqb (py "/fresh") (py "/") = false /\
  Couchfs._get_doc Scenario.float_repr Fixture.account
    (slice_from (py "/fresh") 1) false false false
  = Ok (ObjValue
          (VDict [(py "db_name", VStr (py "fresh"));
                  (py "doc_count", VInt 0);
                  (py "update_seq", VInt 0)])) /\
  dict_getitem [(py "db_name", VStr (py "fresh"));
                (py "doc_count", VInt 0);
                (py "update_seq", VInt 0)] (py "update_seq")
  = Ok (VInt 0) /\
  is_doc (ObjValue Fixture.fresh) = Ok false /\
  is_db (ObjValue Fixture.fresh) = Ok false /\
  Couchfs.getattr Scenario.float_repr Fixture.account (py "/fresh") None =
    Ok [("st_mode"%string, Z.lor S_IFREG mode_0o755);
        ("st_nlink"%string, 1); ("st_size"%string, 0)] /\
  Couchfs.readdir Scenario.float_repr Scenario.tuple_str Fixture.account
    (py "/fresh") 0 = Ok None.
Proof.
  split; [reflexivity|]. split; [reflexivity|]. split; [reflexivity|].
  split; [reflexivity|].
  apply (@zero_update_seq_is_no_database Scenario.float_repr
           Scenario.tuple_str Fixture.account (py "/fresh")
           [(py "db_name", VStr (py "fresh"));
            (py "doc_count", VInt 0);
            (py "update_seq", VInt 0)] 0 None);
    reflexivity.
Defined.

Lemma database_test_goes_first_witness :
  (forall f, ascii_str (Scenario.float_repr f)) /\
  str_eqb (py "/hybrid") (py "/") = false /\
  Couchfs._get_doc Scenario.float_repr Fixture.account
    (slice_from (py "/hybrid") 1) false false false
  = Ok (ObjValue Fixture.hybrid) /\
  is_db (ObjValue Fixture.hybrid) = Ok true /\
  is_doc (ObjValue Fixture.hybrid) = Ok true /\
  Couchfs.getattr Scenario.float_repr Fixture.account (py "/hybrid") None =
    Ok [("st_mode"%string, Z.lor S_IFDIR mode_0o755);
        ("st_nlink"%string, 2); ("st_size"%string, 4096)] /\
  (forall listing,
     Couchfs.readdir Scenario.float_repr Scenario.tuple_str Fixture.account
       (py "/hybrid") 0 = Ok listing -> listing <> None) /\
  (exists text content,
     Couchfs._get_doc_formated Scenario.float_repr (ObjValue Fixture.hybrid)
     = Ok (ObjValue (VStr text)) /\
     encode text = Ok content /\
     forall size, len content <= size ->
       Couchfs.read Scenario.float_repr Fixture.account
         (py "/hybrid") size 0 0 = Ok content).
Proof.
  split; [exact scenario_float_repr_ascii|].
  split; [reflexivity|]. split; [reflexivity|]. split; [reflexivity|].
  split; [reflexivity|].
  apply (@database_test_goes_first Scenario.float_repr
           scenario_float_repr_ascii Scenario.tuple_str Fixture.account
           (py "/hybrid") (ObjValue Fixture.hybrid) 0 None);
    reflexivity.
Defined.

(** The earlier module on [/alpha/doc1] and [/alpha]. *)
Lemma couch_fuse_getattr_size_witness :
  str_eqb (py "/alpha/doc1") (py "/") = false /\
  CouchFuse._get_doc Scenario.account (slice_from (py "/alpha/doc1") 1) true
  = Ok (ObjResponse (get Scenario.account (py "alpha/doc1"))) /\
  decoded (get Scenario.account (py "alpha/doc1")) = Some Scenario.doc1 /\
  classify (ObjValue Scenario.doc1) = Ok Document /\
  encode (text (get Scenario.account (py "alpha/doc1")))
  = Ok (List.map byte_of_N (text (get Scenario.account (py "alpha/doc1")))) /\
  (forall size fh,
     len (List.map byte_of_N
            (text (get Scenario.account (py "alpha/doc1")))) <= size ->
     CouchFuse.read Scenario.account (py "/alpha/doc1") size 0 fh
     = Ok (List.map byte_of_N
             (text (get Scenario.account (py "alpha/doc1"))))) /\
  (forall fh,
     CouchFuse.getattr Scenario.account (py "/alpha/doc1") fh =
     Ok [("st_mode"%string, Z.lor S_IFREG mode_0o755);
         ("st_nlink"%string, 1);
         ("st_size"%string,
          len (List.map byte_of_N
                 (text (get Scenario.account (py "alpha/doc1")))))]).
Proof.
  split; [reflexivity|]. split; [reflexivity|]. split; [reflexivity|].
  split; [reflexivity|]. split; [reflexivity|].
  apply (@couch_fuse_getattr_size Scenario.account (py "/alpha/doc1")
           (get Scenario.account (py "alpha/doc1")) Scenario.doc1 _);
    reflexivity.
Defined.

Lemma couch_fuse_readdir_lists_ids_witness :
  str_eqb (py "/alpha") (py "/") = false /\
  CouchFuse._get_doc Scenario.account (slice_from (py "/alpha") 1) false
  = Ok (ObjValue Scenario.alpha) /\
  is_db (ObjValue Scenario.alpha) = Ok true /\
  exists name children,
    obj_getitem (ObjValue Scenario.alpha) (py "db_name") = Ok name /\
    CouchFuse.readdir Scenario.tuple_str Scenario.account (py "/alpha") 0
    = Ok (Some (py "." :: py ".." :: children)) /\
    children =
      List.map (fun x => id x)
        (filter (fun x => negb (startswith (id x) (py "_design/")))
           (all_docs (getitem Scenario.account name))) /\
    Forall (fun child => startswith child (py "_design/") = false) children.
Proof.
  split; [reflexivity|]. split; [reflexivity|]. split; [reflexivity|].
  apply (@couch_fuse_readdir_lists_ids Scenario.tuple_str Scenario.account
           (py "/alpha") (ObjValue Scenario.alpha) 0);
    reflexivity.
Defined.
